(** * Risk-Redux: the decision engine, the exposure aggregator and the stores

    A shallow embedding of the deterministic core of the Risk-Redux terminal
    (the rule-driven page) and of its fixed-rule twin in [src/app/page.tsx],
    followed by the properties that the specification states about them.

    Conventions of the embedding:
    - a TypeScript [number] is an IEEE 754 binary64 value, here Rocq's
      primitive [float]; [>] and [>=] are the IEEE comparisons, which are
      false as soon as one side is NaN;
    - a time value (the result of [Date.getTime] or [Date.now]) is an integer
      count of milliseconds since the epoch, here a [Z], and [None] stands
      for the time value NaN of an invalid date; the methods of [Date] are
      the host's, with its time zone and its daylight-saving rules, and are
      taken as they come ([DateHost]);
    - reason codes are the strings of the source;
    - an array built by successive [push] calls is a list extended on the
      right;
    - a plain JavaScript object used as a bag of properties is a
      [gmap string _]. *)

From Stdlib Require Import ZArith Lia Floats.
From stdpp Require Import base list strings pretty sorting gmap.

Set Warnings "-inexact-float,-register-all".

(** ** JavaScript numbers *)

Module Number.

(** [a > b] on numbers. *)
Definition gt (a b : float) : bool := (b <? a)%float.

(** [a >= b] on numbers. *)
Definition ge (a b : float) : bool := (b <=? a)%float.

(** [a === b] on numbers (so [NaN] differs from itself and [-0] equals [0]). *)
Definition seq (a b : float) : bool := (a =? b)%float.

(** [Number.isFinite(n)]: neither NaN nor an infinity. *)
Definition isFinite (n : float) : bool := is_finite n.

(** [Number.isInteger(n)]: a finite value with no fractional part.  A
    binary64 value [m * 2^e] with [m > 0] is integral exactly when [e] is
    non-negative or [2^(-e)] divides [m]. *)
Definition isInteger (n : float) : bool :=
  match Prim2SF n with
  | S754_zero _ => true
  | S754_finite _ m e => (0 <=? e)%Z || (Z.pos m mod 2 ^ (- e) =? 0)%Z
  | S754_infinity _ | S754_nan => false
  end.

(** [n || 0]: the falsy numbers ([0], [-0] and [NaN]) are replaced by [0]. *)
Definition or_zero (n : float) : float :=
  if is_nan n || is_zero n then 0%float else n.

End Number.

(** ** Types shared by the two pages *)

Record ProposedBet := {
  stake : float;
  odds : float;
  group1_id : string;
  group2_id : string
}.

Record Exposures := {
  daily_staked : float;
  weekly_staked : float;
  same_group1_staked : float;
  same_group2_7d_staked : float;
  bets_today : float
}.

Inductive Verdict := ALLOW | WARN | HARD_WARN | RED_ALERT.

#[global] Instance Verdict_eq_dec : EqDecision Verdict.
Proof. solve_decision. Defined.

Record DecisionResult := {
  verdict : Verdict;
  reasons : list string;
  friction_required : bool;
  cooldown_triggered : bool
}.

(** [if (c) arr.push(x)], as a function of the array before the statement. *)
Definition push_if (c : bool) (arr : list string) (x : string) : list string :=
  if c then arr ++ [x] else arr.

(** [arr.includes(x)] on an array of strings. *)
Definition includes (arr : list string) (x : string) : bool :=
  existsb (String.eqb x) arr.

(** ** The rule-driven engine (the terminal page) *)

Record UserRules := {
  unit_pct : float;
  daily_pct : float;
  weekly_pct : float;
  group1_pct : float;
  group2_pct : float;
  freq_cap : float;
  odds_gate : float
}.

Record BehavioralState := {
  stake_velocity_spike : bool;
  frequency_spike : bool;
  consecutive_overrides : float;
  cooldown_violations : float;
  cooldown_active : bool
}.

(** The table [R] of reason codes. *)
Module R.
Definition UNIT : string := "UNIT_SIZE_CAP_EXCEEDED".
Definition DAILY : string := "DAILY_EXPOSURE_CAP_EXCEEDED".
Definition WEEKLY : string := "WEEKLY_EXPOSURE_CAP_EXCEEDED".
Definition EVENT : string := "SAME_EVENT_CONCENTRATION_CAP_EXCEEDED".
Definition TEAM : string := "SAME_TEAM_7D_CONCENTRATION_CAP_EXCEEDED".
Definition FREQ : string := "ACTION_FREQUENCY_CAP_EXCEEDED".
Definition ODDS : string := "HIGH_RISK_ODDS_GATE".
Definition STAKE_SPIKE : string := "STAKE_VELOCITY_SPIKE".
Definition FREQ_SPIKE : string := "FREQUENCY_SPIKE".
Definition CONS_OVR : string := "CONSECUTIVE_OVERRIDES_HIGH".
Definition CD_HIST : string := "COOLDOWN_VIOLATION_HISTORY".
Definition CD_ACTIVE : string := "COOLDOWN_ACTIVE".
End R.

Definition DEFAULT_RULES : UserRules := {|
  unit_pct := 2; daily_pct := 6; weekly_pct := 20; group1_pct := 4;
  group2_pct := 8; freq_cap := 5; odds_gate := 250
|}.

Definition isValidAmericanOdds (n : float) : bool :=
  Number.isFinite n && Number.isInteger n && negb (Number.seq n 0).

Definition rank (v : Verdict) : Z :=
  match v with ALLOW => 0 | WARN => 1 | HARD_WARN => 2 | RED_ALERT => 3 end.

Definition maxTier (a b : Verdict) : Verdict :=
  if (rank b <=? rank a)%Z then a else b.

Definition escalateOneTier (v : Verdict) : Verdict :=
  match v with ALLOW => WARN | WARN => HARD_WARN | _ => RED_ALERT end.

(** The five derived caps of [evaluate_v1], in the order
    unit, daily, weekly, event, team. *)
Record Caps := {
  unit_cap : float;
  daily_cap : float;
  weekly_cap : float;
  event_cap : float;
  team_cap : float
}.

Definition caps_of (bankroll : float) (rules : UserRules) : Caps :=
  let B := bankroll in
  {| unit_cap := B * (unit_pct rules / 100);
     daily_cap := B * (daily_pct rules / 100);
     weekly_cap := B * (weekly_pct rules / 100);
     event_cap := B * (group1_pct rules / 100);
     team_cap := B * (group2_pct rules / 100) |}%float.

(** The projections [post_daily], [post_weekly], [post_event], [post_team7d]
    and [post_bets], returned as an [Exposures] record. *)
Definition projections (bet : ProposedBet) (exp : Exposures) : Exposures :=
  let S := stake bet in
  {| daily_staked := daily_staked exp + S;
     weekly_staked := weekly_staked exp + S;
     same_group1_staked := same_group1_staked exp + S;
     same_group2_7d_staked := same_group2_7d_staked exp + S;
     bets_today := bets_today exp + 1 |}%float.

(** The array [violations] once the six cap checks have run. *)
Definition violations_of (bankroll : float) (rules : UserRules)
    (bet : ProposedBet) (exp : Exposures) : list string :=
  let S := stake bet in
  let c := caps_of bankroll rules in
  let p := projections bet exp in
  let violations := [] in
  let violations := push_if (Number.gt S (unit_cap c)) violations R.UNIT in
  let violations := push_if (Number.gt (daily_staked p) (daily_cap c)) violations R.DAILY in
  let violations := push_if (Number.gt (weekly_staked p) (weekly_cap c)) violations R.WEEKLY in
  let violations := push_if (Number.gt (same_group1_staked p) (event_cap c)) violations R.EVENT in
  let violations := push_if (Number.gt (same_group2_7d_staked p) (team_cap c)) violations R.TEAM in
  let violations := push_if (Number.gt (bets_today p) (freq_cap rules)) violations R.FREQ in
  violations.

(** The array [gates] once the odds check has run. *)
Definition gates_of (rules : UserRules) (bet : ProposedBet) : list string :=
  let gates := [] in
  let oddsInvalid := negb (isValidAmericanOdds (odds bet)) in
  let gates := push_if (oddsInvalid || Number.ge (odds bet) (odds_gate rules)) gates R.ODDS in
  gates.

(** The array [flags] once the four behavioural checks have run. *)
Definition flags_of (beh : BehavioralState) : list string :=
  let flags := [] in
  let flags := push_if (stake_velocity_spike beh) flags R.STAKE_SPIKE in
  let flags := push_if (frequency_spike beh) flags R.FREQ_SPIKE in
  let flags := push_if (Number.ge (consecutive_overrides beh) 2) flags R.CONS_OVR in
  let flags := push_if (Number.ge (cooldown_violations beh) 1) flags R.CD_HIST in
  flags.

(** The [if / else if] chain that assigns [verdict] from the two counts. *)
Definition base_verdict (vCount gCount : nat) : Verdict :=
  let verdict := ALLOW in
  if (vCount =? 0)%nat && (gCount =? 0)%nat then ALLOW
  else if (vCount =? 0)%nat && (0 <? gCount)%nat then WARN
  else if (vCount =? 1)%nat then WARN
  else if (2 <=? vCount)%nat then HARD_WARN
  else verdict.

(** The five amplification statements, applied in sequence to [verdict]. *)
Definition amplify (violations gates : list string) (beh : BehavioralState)
    (verdict : Verdict) : Verdict :=
  let vCount := length violations in
  let spike := stake_velocity_spike beh || frequency_spike beh in
  let verdict := if includes violations R.WEEKLY then RED_ALERT else verdict in
  let verdict := if Number.ge (consecutive_overrides beh) 3 then RED_ALERT else verdict in
  let verdict :=
    if Number.ge (cooldown_violations beh) 1 && (1 <=? vCount)%nat
    then RED_ALERT else verdict in
  let verdict :=
    if (1 <=? vCount)%nat && spike then escalateOneTier verdict else verdict in
  let verdict :=
    if includes gates R.ODDS && spike then maxTier verdict HARD_WARN else verdict in
  verdict.

Definition evaluate_v1 (bankroll : float) (rules : UserRules) (bet : ProposedBet)
    (exp : Exposures) (beh : BehavioralState) : DecisionResult :=
  if cooldown_active beh then
    {| verdict := RED_ALERT; reasons := [R.CD_ACTIVE];
       friction_required := true; cooldown_triggered := true |}
  else
    let violations := violations_of bankroll rules bet exp in
    let gates := gates_of rules bet in
    let flags := flags_of beh in
    let vCount := length violations in
    let gCount := length gates in
    let verdict := base_verdict vCount gCount in
    let verdict := amplify violations gates beh verdict in
    let reasons := violations ++ gates ++ flags in
    let friction_required := negb (bool_decide (verdict = ALLOW)) in
    let cooldown_triggered := bool_decide (verdict = RED_ALERT) in
    {| verdict := verdict; reasons := reasons;
       friction_required := friction_required;
       cooldown_triggered := cooldown_triggered |}.

(** ** The fixed-rule engine of [src/app/page.tsx] *)

Module Page.

Record BehavioralState := {
  warnings_last_24h : float;
  warnings_last_7d : float;
  overrides_last_7d : float;
  consecutive_overrides : float;
  cooldown_violations : float;
  stake_velocity_spike : bool;
  frequency_spike : bool;
  cooldown_active : bool
}.

(** The table [REASONS]. *)
Module REASONS.
Definition UNIT_SIZE : string := "UNIT_SIZE_CAP_EXCEEDED".
Definition DAILY : string := "DAILY_EXPOSURE_CAP_EXCEEDED".
Definition WEEKLY : string := "WEEKLY_EXPOSURE_CAP_EXCEEDED".
Definition GROUP1 : string := "SAME_EVENT_CONCENTRATION_CAP_EXCEEDED".
Definition GROUP2 : string := "SAME_TEAM_7D_CONCENTRATION_CAP_EXCEEDED".
Definition FREQ : string := "ACTION_FREQUENCY_CAP_EXCEEDED".
Definition ODDS : string := "HIGH_RISK_ODDS_GATE".
Definition STAKE_SPIKE : string := "STAKE_VELOCITY_SPIKE".
Definition FREQ_SPIKE : string := "FREQUENCY_SPIKE".
Definition CONS_OVR : string := "CONSECUTIVE_OVERRIDES_HIGH".
Definition CD_HIST : string := "COOLDOWN_VIOLATION_HISTORY".
Definition CD_ACTIVE : string := "COOLDOWN_ACTIVE".
End REASONS.

Definition isValidAmericanOdds (n : float) : bool :=
  Number.isFinite n && Number.isInteger n && negb (Number.seq n 0).

Definition tierRank (v : Verdict) : Z :=
  match v with ALLOW => 0 | WARN => 1 | HARD_WARN => 2 | RED_ALERT => 3 end.

Definition maxTier (a b : Verdict) : Verdict :=
  if (tierRank b <=? tierRank a)%Z then a else b.

Definition escalateOneTier (v : Verdict) : Verdict :=
  match v with ALLOW => WARN | WARN => HARD_WARN | _ => RED_ALERT end.

Definition evaluate_v1 (bankroll : float) (bet : ProposedBet)
    (exposures : Exposures) (behavioral : BehavioralState) : DecisionResult :=
  if bool_decide (cooldown_active behavioral = true) then
    {| verdict := RED_ALERT; reasons := [REASONS.CD_ACTIVE];
       friction_required := true; cooldown_triggered := true |}
  else
    let B := bankroll in
    let S := stake bet in
    let unit_cap := (B * 0.02)%float in
    let daily_cap := (B * 0.06)%float in
    let weekly_cap := (B * 0.20)%float in
    let group1_cap := (B * 0.04)%float in
    let group2_cap := (B * 0.08)%float in
    let post_daily := (daily_staked exposures + S)%float in
    let post_weekly := (weekly_staked exposures + S)%float in
    let post_group1 := (same_group1_staked exposures + S)%float in
    let post_group2 := (same_group2_7d_staked exposures + S)%float in
    let post_bets := (bets_today exposures + 1)%float in
    let violations := [] in
    let gates := [] in
    let flags := [] in
    let violations := push_if (Number.gt S unit_cap) violations REASONS.UNIT_SIZE in
    let violations := push_if (Number.gt post_daily daily_cap) violations REASONS.DAILY in
    let violations := push_if (Number.gt post_weekly weekly_cap) violations REASONS.WEEKLY in
    let violations := push_if (Number.gt post_group1 group1_cap) violations REASONS.GROUP1 in
    let violations := push_if (Number.gt post_group2 group2_cap) violations REASONS.GROUP2 in
    let violations := push_if (Number.gt post_bets 5) violations REASONS.FREQ in
    let oddsInvalid := negb (isValidAmericanOdds (odds bet)) in
    let gates := push_if (oddsInvalid || Number.ge (odds bet) 250) gates REASONS.ODDS in
    let flags := push_if (stake_velocity_spike behavioral) flags REASONS.STAKE_SPIKE in
    let flags := push_if (frequency_spike behavioral) flags REASONS.FREQ_SPIKE in
    let flags := push_if (Number.ge (consecutive_overrides behavioral) 2) flags REASONS.CONS_OVR in
    let flags := push_if (Number.ge (cooldown_violations behavioral) 1) flags REASONS.CD_HIST in
    let verdict := ALLOW in
    let violationCount := length violations in
    let gateCount := length gates in
    let verdict :=
      if (violationCount =? 0)%nat && (gateCount =? 0)%nat then ALLOW
      else if (violationCount =? 0)%nat && (0 <? gateCount)%nat then WARN
      else if (violationCount =? 1)%nat then WARN
      else if (2 <=? violationCount)%nat then HARD_WARN
      else verdict in
    let verdict := if includes violations REASONS.WEEKLY then RED_ALERT else verdict in
    let verdict :=
      if Number.ge (consecutive_overrides behavioral) 3 then RED_ALERT else verdict in
    let verdict :=
      if Number.ge (cooldown_violations behavioral) 1 && (1 <=? violationCount)%nat
      then RED_ALERT else verdict in
    let verdict :=
      if (1 <=? violationCount)%nat
         && (stake_velocity_spike behavioral || frequency_spike behavioral)
      then escalateOneTier verdict else verdict in
    let verdict :=
      if includes gates REASONS.ODDS
         && (stake_velocity_spike behavioral || frequency_spike behavioral)
      then maxTier verdict HARD_WARN else verdict in
    let reasons := violations ++ gates ++ flags in
    let friction_required := negb (bool_decide (verdict = ALLOW)) in
    let cooldown_triggered := bool_decide (verdict = RED_ALERT) in
    {| verdict := verdict; reasons := reasons;
       friction_required := friction_required;
       cooldown_triggered := cooldown_triggered |}.

End Page.

(** The behavioural fields that the terminal page has in common with
    [Page.BehavioralState]. *)
Definition behavior_of_page (b : Page.BehavioralState) : BehavioralState :=
  {| stake_velocity_spike := Page.stake_velocity_spike b;
     frequency_spike := Page.frequency_spike b;
     consecutive_overrides := Page.consecutive_overrides b;
     cooldown_violations := Page.cooldown_violations b;
     cooldown_active := Page.cooldown_active b |}.

(** ** Storage *)

(** The values that [JSON.parse] can return.  An object keeps its properties
    in insertion order. *)
Inductive JSON :=
  | JNull
  | JBool (b : bool)
  | JNumber (n : float)
  | JString (s : string)
  | JArray (elems : list JSON)
  | JObject (props : list (string * JSON)).

(** How a statement completes: normally with a value, or by throwing. *)
Inductive completion (A : Type) :=
  | Normal (a : A)
  | Throw.
Arguments Normal {A} a.
Arguments Throw {A}.

(** The own enumerable properties of a value, in enumeration order: the
    properties of an object, the indices of an array or of a string, and
    nothing for [null], booleans and numbers. *)
Definition own_props (v : JSON) : list (string * JSON) :=
  match v with
  | JObject props => props
  | JArray elems => imap (fun (i : nat) x => (pretty i, x)) elems
  | JString s =>
      imap (fun (i : nat) c => (pretty i, JString (String c EmptyString)))
           (String.list_ascii_of_string s)
  | JNull | JBool _ | JNumber _ => []
  end.

(** [{ ...target, ...src }] once [target] has been copied: every own property
    of [src] is defined on the result, later ones overwriting earlier ones. *)
Definition spread (target : gmap string JSON) (src : JSON) : gmap string JSON :=
  foldl (fun o kv => <[kv.1 := kv.2]> o) target (own_props src).

(** A [UserRules] value as the object literal that the source writes. *)
Definition rules_object (r : UserRules) : JSON :=
  JObject
    [ ("unit_pct", JNumber (unit_pct r)); ("daily_pct", JNumber (daily_pct r));
      ("weekly_pct", JNumber (weekly_pct r)); ("group1_pct", JNumber (group1_pct r));
      ("group2_pct", JNumber (group2_pct r)); ("freq_cap", JNumber (freq_cap r));
      ("odds_gate", JNumber (odds_gate r)) ].

(** The seven property names of [UserRules]. *)
Definition rule_fields : list string :=
  ["unit_pct"; "daily_pct"; "weekly_pct"; "group1_pct"; "group2_pct";
   "freq_cap"; "odds_gate"].

(** Reading an object back at type [UserRules]: defined when each of the
    seven properties holds a number. *)
Definition rules_of_object (o : gmap string JSON) : option UserRules :=
  match o !! "unit_pct", o !! "daily_pct", o !! "weekly_pct", o !! "group1_pct",
        o !! "group2_pct", o !! "freq_cap", o !! "odds_gate" with
  | Some (JNumber u), Some (JNumber d), Some (JNumber w), Some (JNumber g1),
    Some (JNumber g2), Some (JNumber f), Some (JNumber og) =>
      Some {| unit_pct := u; daily_pct := d; weekly_pct := w; group1_pct := g1;
              group2_pct := g2; freq_cap := f; odds_gate := og |}
  | _, _, _, _, _, _, _ => None
  end.

Definition LEDGER_KEY : string := "rr_v1_ledger".
Definition RULES_KEY : string := "rr_v1_rules".

Section Storage.

(** [JSON.parse], which throws on text that is not JSON. *)
Variable JSON_parse : string -> completion JSON.

(** [loadRules], given how [localStorage.getItem(RULES_KEY)] completes
    ([None] is [null]).  The empty string is falsy, like [null]. *)
Definition loadRules (getItem : string -> completion (option string))
    : gmap string JSON :=
  match getItem RULES_KEY with
  | Throw => spread ∅ (rules_object DEFAULT_RULES)
  | Normal None => spread ∅ (rules_object DEFAULT_RULES)
  | Normal (Some raw) =>
      if bool_decide (raw = "") then spread ∅ (rules_object DEFAULT_RULES)
      else
        match JSON_parse raw with
        | Throw => spread ∅ (rules_object DEFAULT_RULES)
        | Normal parsed => spread (spread ∅ (rules_object DEFAULT_RULES)) parsed
        end
  end.

End Storage.

(** ** The ledger and the exposure aggregator *)

Module LedgerEntry.
Record t := {
  id : string;
  ts : Z;
  stake : float;
  odds : float;
  group1_id : string;
  group2_id : string;
  verdict : Verdict;
  reasons : list string
}.
End LedgerEntry.

Definition MS_7D : Z := 7 * 24 * 60 * 60 * 1000.

(** The methods of the host's [Date] that the pages call.  The local
    calendar and its daylight-saving rules are the host's; nothing is assumed
    about them.  [getFullYear], [getMonth], [getDate] and [getDay] are read
    off a valid date, given by its time value; [Date_local] is
    [new Date(year, month, date, hours, minutes, seconds, ms).getTime()];
    [setDate t n] is the time value of the date with time value [t] after
    [d.setDate(n)]. *)
Record DateHost := {
  getFullYear : Z -> Z;
  getMonth : Z -> Z;
  getDate : Z -> Z;
  getDay : Z -> Z;
  Date_local : Z -> Z -> Z -> Z -> Z -> Z -> Z -> option Z;
  setDate : Z -> Z -> option Z
}.

(** [ts >= start] for a timestamp and a time value that may be NaN. *)
Definition reaches (ts : Z) (start : option Z) : bool :=
  match start with
  | Some s => (s <=? ts)%Z
  | None => false
  end.

Section Clock.

Variable host : DateHost.

Local Open Scope Z_scope.

(** [startOfLocalDay(d)], for a date given by its time value.  Every getter
    of an invalid date is NaN, and so is the date built from them. *)
Definition startOfLocalDay (d : option Z) : option Z :=
  match d with
  | Some t =>
      Date_local host (getFullYear host t) (getMonth host t) (getDate host t)
        0 0 0 0
  | None => None
  end.

Definition startOfISOWeekLocal (d : option Z) : option Z :=
  match d with
  | Some t =>
      let day := getDay host t in
      let diffToMonday := (if (day =? 0)%Z then -6 else 1) - day in
      let monday := setDate host t (getDate host t + diffToMonday) in
      startOfLocalDay monday
  | None => None
  end.

(** The body of the [for] loop of [computeExposures]: the five running
    totals after entry [e], from the totals before it. *)
Definition accumulate (dayStart weekStart : option Z) (t7 : Z)
    (group1_id group2_id : string) (acc : Exposures) (e : LedgerEntry.t)
    : Exposures :=
  let daily := daily_staked acc in
  let weekly := weekly_staked acc in
  let sameG1 := same_group1_staked acc in
  let sameG2 := same_group2_7d_staked acc in
  let betsToday := bets_today acc in
  let '(daily, betsToday, sameG1) :=
    if reaches (LedgerEntry.ts e) dayStart then
      ((daily + LedgerEntry.stake e)%float, (betsToday + 1)%float,
       if String.eqb (LedgerEntry.group1_id e) group1_id
       then (sameG1 + LedgerEntry.stake e)%float else sameG1)
    else (daily, betsToday, sameG1) in
  let weekly :=
    if reaches (LedgerEntry.ts e) weekStart
    then (weekly + LedgerEntry.stake e)%float else weekly in
  let sameG2 :=
    if (t7 <=? LedgerEntry.ts e)%Z && String.eqb (LedgerEntry.group2_id e) group2_id
    then (sameG2 + LedgerEntry.stake e)%float else sameG2 in
  {| daily_staked := daily; weekly_staked := weekly;
     same_group1_staked := sameG1; same_group2_7d_staked := sameG2;
     bets_today := betsToday |}.

(** [computeExposures], with the instant read by [new Date()] as [now]. *)
Definition computeExposures (now : Z) (ledger : list LedgerEntry.t)
    (group1_id group2_id : string) : Exposures :=
  let dayStart := startOfLocalDay (Some now) in
  let weekStart := startOfISOWeekLocal (Some now) in
  let t7 := now - MS_7D in
  foldl (accumulate dayStart weekStart t7 group1_id group2_id)
    {| daily_staked := 0; weekly_staked := 0; same_group1_staked := 0;
       same_group2_7d_staked := 0; bets_today := 0 |}
    ledger.

End Clock.

Section Ledger.

(** [String.prototype.trim]. *)
Variable trim : string -> string.

(** [addToLedger] of the terminal page: the ledger state after the call,
    from the identifier drawn by [crypto.randomUUID()], the instant read by
    [Date.now()], the form fields, the current decision and the ledger
    state before the call. *)
Definition addToLedger (uuid : string) (now : Z) (stake odds : float)
    (group1 group2 : string) (decision : DecisionResult)
    (ledger : list LedgerEntry.t) : list LedgerEntry.t :=
  let entry :=
    {| LedgerEntry.id := uuid; LedgerEntry.ts := now;
       LedgerEntry.stake := Number.or_zero stake; LedgerEntry.odds := odds;
       LedgerEntry.group1_id := trim group1; LedgerEntry.group2_id := trim group2;
       LedgerEntry.verdict := verdict decision;
       LedgerEntry.reasons := reasons decision |} in
  let next := take 500 (entry :: ledger) in
  next.

End Ledger.

(** ** The browser store and the ledger store *)

Section LocalStorage.

(** Whether the browser accepts a value under a key; a write that it refuses
    (over the quota) throws. *)
Variable fits : string -> string -> bool.

Variable JSON_parse : string -> completion JSON.
Variable JSON_stringify : JSON -> string.

(** [localStorage.getItem(key)] on a store that can be read. *)
Definition getItem (store : gmap string string) (key : string)
    : completion (option string) :=
  Normal (store !! key).

(** [localStorage.setItem(key, value)]: the store after the call. *)
Definition setItem (store : gmap string string) (key value : string)
    : completion (gmap string string) :=
  if fits key value then Normal (<[key := value]> store) else Throw.

(** [loadLedger], given how [localStorage.getItem(LEDGER_KEY)] completes.  The
    entries are returned as [JSON.parse] built them. *)
Definition loadLedger (getItem : string -> completion (option string))
    : list JSON :=
  match getItem LEDGER_KEY with
  | Throw => []
  | Normal None => []
  | Normal (Some raw) =>
      if bool_decide (raw = "") then []
      else
        match JSON_parse raw with
        | Throw => []
        | Normal parsed =>
            match parsed with
            | JArray elems => elems
            | _ => []
            end
        end
  end.

Definition saveLedger (store : gmap string string) (entries : list JSON)
    : completion (gmap string string) :=
  setItem store LEDGER_KEY (JSON_stringify (JArray entries)).

Definition saveRules (store : gmap string string) (rules : JSON)
    : completion (gmap string string) :=
  setItem store RULES_KEY (JSON_stringify rules).

(** What [resetLedger] writes to the store. *)
Definition resetLedger (store : gmap string string)
    : completion (gmap string string) :=
  saveLedger store [].

End LocalStorage.

(** ** Display helpers of the terminal page *)

Definition clamp01 (x : float) : float :=
  if negb (Number.isFinite x) then 0%float
  else if (x <? 0)%float then 0%float
  else if Number.gt x 1 then 1%float
  else x.

Definition badgeClass (v : Verdict) : string :=
  if bool_decide (v = ALLOW) then "badge badgeOK"
  else if bool_decide (v = WARN) then "badge badgeWARN"
  else if bool_decide (v = HARD_WARN) then "badge badgeHARD"
  else "badge badgeRED flashRed".

Definition statusLabel (v : Verdict) : string :=
  if bool_decide (v = ALLOW) then "CLEAR"
  else if bool_decide (v = WARN) then "WARM WARNING"
  else if bool_decide (v = HARD_WARN) then "HARD WARNING"
  else "RED ALERT".

(** ** The ledger of [src/app/page.tsx] *)

Module PageLedger.

Record LedgerEntry := {
  id : string;
  ts : Z;
  category : string;
  stake : float;
  odds : float;
  group1_id : string;
  group2_id : string;
  verdict : Verdict;
  reasons : list string
}.

Definition msDays (n : Z) : Z := (n * 24 * 60 * 60 * 1000)%Z.

(** [s || ""] on a string: the empty string is the only falsy one. *)
Definition or_empty (s : string) : string :=
  if bool_decide (s = "") then "" else s.

Section Clock.

Variable host : DateHost.

Local Open Scope Z_scope.

(** The [Date] built by [startOfLocalDay], as its time value. *)
Definition startOfLocalDay (d : option Z) : option Z :=
  match d with
  | Some t =>
      Date_local host (getFullYear host t) (getMonth host t) (getDate host t)
        0 0 0 0
  | None => None
  end.

Definition startOfISOWeekLocal (d : option Z) : option Z :=
  match d with
  | Some t =>
      let day := getDay host t in
      let diffToMonday := (if (day =? 0)%Z then -6 else 1) - day in
      let monday := setDate host t (getDate host t + diffToMonday) in
      let sod := startOfLocalDay monday in
      sod
  | None => None
  end.

(** [computeExposuresNow], with the instant read by [new Date()] as [now]. *)
Definition computeExposuresNow (now : Z) (ledger : list LedgerEntry)
    (group1_id' group2_id' : string) : Exposures :=
  let dayStart := startOfLocalDay (Some now) in
  let weekStart := startOfISOWeekLocal (Some now) in
  let sevenDaysAgo := now - msDays 7 in
  foldl
    (fun acc e =>
       let daily := daily_staked acc in
       let weekly := weekly_staked acc in
       let sameG1 := same_group1_staked acc in
       let sameG2_7d := same_group2_7d_staked acc in
       let betsToday := bets_today acc in
       let '(daily, betsToday, sameG1) :=
         if reaches (ts e) dayStart then
           ((daily + stake e)%float, (betsToday + 1)%float,
            if String.eqb (group1_id e) group1_id'
            then (sameG1 + stake e)%float else sameG1)
         else (daily, betsToday, sameG1) in
       let weekly :=
         if reaches (ts e) weekStart then (weekly + stake e)%float else weekly in
       let sameG2_7d :=
         if (sevenDaysAgo <=? ts e)%Z && String.eqb (group2_id e) group2_id'
         then (sameG2_7d + stake e)%float else sameG2_7d in
       {| daily_staked := daily; weekly_staked := weekly;
          same_group1_staked := sameG1; same_group2_7d_staked := sameG2_7d;
          bets_today := betsToday |})
    {| daily_staked := 0; weekly_staked := 0; same_group1_staked := 0;
       same_group2_7d_staked := 0; bets_today := 0 |}
    ledger.

End Clock.

Section Append.

Variable trim : string -> string.

(** [addToLedger] of [src/app/page.tsx]: the ledger state after the call. *)
Definition addToLedger (uuid : string) (now : Z) (category' : string)
    (stake' odds' : float) (group1 group2 : string) (decision : DecisionResult)
    (ledger : list LedgerEntry) : list LedgerEntry :=
  let '(Build_DecisionResult decision_verdict decision_reasons _ _) := decision in
  let entry :=
    {| id := uuid; ts := now; category := category';
       stake := Number.or_zero stake'; odds := odds';
       group1_id := trim (or_empty group1); group2_id := trim (or_empty group2);
       verdict := decision_verdict; reasons := decision_reasons |} in
  let next := take 500 (entry :: ledger) in
  next.

End Append.

End PageLedger.

(** ** Sample inputs *)

(** An empty history: nothing staked, no action today. *)
Definition no_exposure : Exposures :=
  {| daily_staked := 0; weekly_staked := 0; same_group1_staked := 0;
     same_group2_7d_staked := 0; bets_today := 0 |}.

(** No behavioural signal, with the hard stop as given. *)
Definition quiet (cooldown : bool) : BehavioralState :=
  {| stake_velocity_spike := false; frequency_spike := false;
     consecutive_overrides := 0; cooldown_violations := 0;
     cooldown_active := cooldown |}.

Definition page_quiet (cooldown : bool) : Page.BehavioralState :=
  {| Page.warnings_last_24h := 0; Page.warnings_last_7d := 0;
     Page.overrides_last_7d := 0; Page.consecutive_overrides := 0;
     Page.cooldown_violations := 0; Page.stake_velocity_spike := false;
     Page.frequency_spike := false; Page.cooldown_active := cooldown |}.

(** A bet on event [EVENT-1] and team [TEAM-1]. *)
Definition bet_of (stake odds : float) : ProposedBet :=
  {| stake := stake; odds := odds; group1_id := "EVENT-1"; group2_id := "TEAM-1" |}.

(** The result of the hard stop. *)
Definition hard_stop : DecisionResult :=
  {| verdict := RED_ALERT; reasons := ["COOLDOWN_ACTIVE"];
     friction_required := true; cooldown_triggered := true |}.

(** ** Vocabulary of the statements *)

(** A check that compares [value] with [cap] strictly and reports [code] in
    the reason list [r]: the code is reported exactly when the value is
    strictly greater, and never when the two are equal. *)
Definition strict_check (r : list string) (code : string) (value cap : float) : Prop :=
  (code ∈ r <-> Number.gt value cap = true)
  /\ (value = cap \/ Number.seq value cap = true -> code ∉ r).

(** The codes of the cap checks, of the gate and of the behavioural flags, in
    the order of the checks. *)
Definition violation_codes : list string :=
  [R.UNIT; R.DAILY; R.WEEKLY; R.EVENT; R.TEAM; R.FREQ].
Definition gate_codes : list string := [R.ODDS].
Definition flag_codes : list string :=
  [R.STAKE_SPIKE; R.FREQ_SPIKE; R.CONS_OVR; R.CD_HIST].

(** Two ledger entries with the same timestamp, stake and group identifiers
    (their identifiers, odds, verdicts and reasons are free). *)
Definition same_keys (e e' : LedgerEntry.t) : Prop :=
  LedgerEntry.ts e = LedgerEntry.ts e'
  /\ LedgerEntry.stake e = LedgerEntry.stake e'
  /\ LedgerEntry.group1_id e = LedgerEntry.group1_id e'
  /\ LedgerEntry.group2_id e = LedgerEntry.group2_id e'.

(** A ledger whose timestamps never increase from the front to the back. *)
Definition recent_first (ledger : list LedgerEntry.t) : Prop :=
  StronglySorted (fun a b => (LedgerEntry.ts b <= LedgerEntry.ts a)%Z) ledger.

(** The behavioural state that the fixed-rule page builds from the five
    signals it lets the user set: its three other counters are always 0. *)
Definition page_of_behavior (b : BehavioralState) : Page.BehavioralState :=
  {| Page.warnings_last_24h := 0; Page.warnings_last_7d := 0;
     Page.overrides_last_7d := 0;
     Page.consecutive_overrides := consecutive_overrides b;
     Page.cooldown_violations := cooldown_violations b;
     Page.stake_velocity_spike := stake_velocity_spike b;
     Page.frequency_spike := frequency_spike b;
     Page.cooldown_active := cooldown_active b |}.

(** The verdict as a priority table over what the checks found: [weekly] for
    a weekly violation, [cons3] for three consecutive overrides or more,
    [cdv1] for a cooldown violation on record, [spike] for either spike,
    [gate] for the odds gate, [v] for the number of violations. *)
Definition verdict_table (weekly cons3 cdv1 spike gate : bool) (v : nat) : Verdict :=
  if weekly || cons3 || (cdv1 && (1 <=? v)%nat) || ((2 <=? v)%nat && spike)
  then RED_ALERT
  else if (2 <=? v)%nat || ((v =? 1)%nat && spike) || (gate && spike)
  then HARD_WARN
  else if (v =? 0)%nat && negb gate then ALLOW
  else WARN.

(** A ledger entry of [src/app/page.tsx] without its category. *)
Definition erase_category (e : PageLedger.LedgerEntry) : LedgerEntry.t :=
  {| LedgerEntry.id := PageLedger.id e; LedgerEntry.ts := PageLedger.ts e;
     LedgerEntry.stake := PageLedger.stake e; LedgerEntry.odds := PageLedger.odds e;
     LedgerEntry.group1_id := PageLedger.group1_id e;
     LedgerEntry.group2_id := PageLedger.group2_id e;
     LedgerEntry.verdict := PageLedger.verdict e;
     LedgerEntry.reasons := PageLedger.reasons e |}.

(** The entries that pass at least one of the three window tests of
    [computeExposures] at [now]. *)
Definition in_some_window (host : DateHost) (now : Z) (e : LedgerEntry.t) : bool :=
  reaches (LedgerEntry.ts e) (startOfLocalDay host (Some now))
  || reaches (LedgerEntry.ts e) (startOfISOWeekLocal host (Some now))
  || (now - MS_7D <=? LedgerEntry.ts e)%Z.

Definition seen (host : DateHost) (now : Z) (ledger : list LedgerEntry.t)
    : list LedgerEntry.t :=
  filter (fun e => in_some_window host now e = true) ledger.

(** A parser that reads every text as [v], a printer that writes every value
    as [s], and a browser that accepts every write. *)
Definition const_parse (v : JSON) (s : string) : completion JSON := Normal v.
Definition const_stringify (s : string) (v : JSON) : string := s.
Definition always_fits (key value : string) : bool := true.

(** * Properties *)

(** ** Comparisons of binary64 values *)

Section FloatOrder.

Lemma SFcompare_Eq_sym (x y : spec_float) :
  SFcompare x y = Some Eq -> SFcompare y x = Some Eq.
Proof.
  destruct x as [sx|sx| |sx mx ex], y as [sy|sy| |sy my ey]; simpl;
    try discriminate; try reflexivity;
    try (destruct sx; discriminate); try (destruct sy; discriminate).
  - destruct sx, sy; (discriminate || reflexivity).
  - destruct sx, sy; try discriminate.
    + destruct (Z.compare_spec ex ey) as [->| |]; try discriminate.
      rewrite Z.compare_refl.
      rewrite Pos.compare_cont_spec; simpl.
      destruct (Pos.compare_spec mx my) as [->| |]; try discriminate.
      now rewrite Pos.compare_cont_refl.
    + destruct (Z.compare_spec ex ey) as [->| |]; try discriminate.
      rewrite Z.compare_refl.
      rewrite Pos.compare_cont_spec; simpl.
      destruct (Pos.compare_spec mx my) as [->| |]; try discriminate.
      now rewrite Pos.compare_cont_refl.
Qed.

Lemma SFltb_irrefl (x : spec_float) : SFltb x x = false.
Proof.
  unfold SFltb.
  destruct x as [s|s| |s m e]; simpl; try reflexivity.
  - now destruct s.
  - rewrite Z.compare_refl, Pos.compare_cont_refl. now destruct s.
Qed.

(** A number is never strictly greater than itself. *)
Lemma gt_irrefl (a : float) : Number.gt a a = false.
Proof. unfold Number.gt. rewrite ltb_spec. apply SFltb_irrefl. Qed.

(** Two numbers that compare equal are not strictly ordered. *)
Lemma gt_false_of_seq (a b : float) :
  Number.seq a b = true -> Number.gt a b = false.
Proof.
  unfold Number.seq, Number.gt. rewrite FloatAxioms.eqb_spec, ltb_spec.
  unfold SFeqb, SFltb. intros H.
  destruct (SFcompare (Prim2SF a) (Prim2SF b)) as [[| |]|] eqn:E;
    try discriminate.
  now rewrite (SFcompare_Eq_sym _ _ E).
Qed.

Lemma gt_false_of_equal (a b : float) :
  a = b \/ Number.seq a b = true -> Number.gt a b = false.
Proof.
  intros [->|H]; [apply gt_irrefl | now apply gt_false_of_seq].
Qed.

End FloatOrder.

(** ** Arrays filled by conditional pushes *)

Section Pushes.

Lemma elem_of_push_if (c : bool) (arr : list string) (x y : string) :
  y ∈ push_if c arr x <-> y ∈ arr \/ (c = true /\ y = x).
Proof.
  unfold push_if. destruct c.
  - rewrite elem_of_app, list_elem_of_singleton. intuition.
  - intuition discriminate.
Qed.

Lemma push_if_sublist (c : bool) (arr codes : list string) (x : string) :
  arr `sublist_of` codes -> push_if c arr x `sublist_of` codes ++ [x].
Proof.
  intros H. unfold push_if. destruct c.
  - now apply sublist_app.
  - now apply sublist_inserts_r.
Qed.

Lemma includes_spec (arr : list string) (x : string) :
  includes arr x = true <-> x ∈ arr.
Proof.
  unfold includes. rewrite existsb_exists. split.
  - intros (y & Hy & E). apply String.eqb_eq in E. subst y.
    now apply list_elem_of_In.
  - intros H. exists x. split; [now apply list_elem_of_In | apply String.eqb_refl].
Qed.

Lemma length_push_if (c : bool) (arr : list string) (x : string) :
  length (push_if c arr x) = (length arr + (if c then 1 else 0))%nat.
Proof.
  unfold push_if. destruct c; [rewrite length_app; simpl; lia | lia].
Qed.

End Pushes.

(** ** The hard stop *)

(** C1: when [cooldown_active] is true, both engines return the verdict
    RED_ALERT with the single reason COOLDOWN_ACTIVE, friction required and
    cooldown triggered, whatever the bankroll, the rules, the bet, the
    exposures and the other behavioural fields are. *)
Theorem cooldown_hard_stop :
  (forall bankroll rules bet exp beh,
      cooldown_active beh = true ->
      evaluate_v1 bankroll rules bet exp beh = hard_stop)
  /\ (forall bankroll bet exp beh,
      Page.cooldown_active beh = true ->
      Page.evaluate_v1 bankroll bet exp beh = hard_stop).
Proof.
  split.
  - intros bankroll rules bet exp beh H. unfold evaluate_v1. now rewrite H.
  - intros bankroll bet exp beh H. unfold Page.evaluate_v1. now rewrite H.
Qed.

Lemma cooldown_hard_stop_witness :
  (cooldown_active (quiet true) = true
   /\ evaluate_v1 1000 DEFAULT_RULES (bet_of 20 (-110)) no_exposure (quiet true)
      = hard_stop)
  /\ (Page.cooldown_active (page_quiet true) = true
      /\ Page.evaluate_v1 1000 (bet_of 20 (-110)) no_exposure (page_quiet true)
         = hard_stop).
Proof.
  split; (split; [reflexivity|]).
  - apply (proj1 cooldown_hard_stop). reflexivity.
  - apply (proj2 cooldown_hard_stop). reflexivity.
Defined.

(** ** Membership in the reason list *)

Section Reasons.

Variables (bankroll : float) (rules : UserRules) (bet : ProposedBet)
          (exp : Exposures) (beh : BehavioralState).
Hypothesis running : cooldown_active beh = false.

Lemma reasons_running :
  reasons (evaluate_v1 bankroll rules bet exp beh)
  = violations_of bankroll rules bet exp ++ gates_of rules bet ++ flags_of beh.
Proof. unfold evaluate_v1. now rewrite running. Qed.

Lemma verdict_running :
  verdict (evaluate_v1 bankroll rules bet exp beh)
  = amplify (violations_of bankroll rules bet exp) (gates_of rules bet) beh
      (base_verdict (length (violations_of bankroll rules bet exp))
                    (length (gates_of rules bet))).
Proof. unfold evaluate_v1. now rewrite running. Qed.

Lemma elem_of_violations (y : string) :
  y ∈ violations_of bankroll rules bet exp <->
    (Number.gt (stake bet) (bankroll * (unit_pct rules / 100)) = true /\ y = R.UNIT)
    \/ (Number.gt (daily_staked exp + stake bet) (bankroll * (daily_pct rules / 100)) = true
        /\ y = R.DAILY)
    \/ (Number.gt (weekly_staked exp + stake bet) (bankroll * (weekly_pct rules / 100)) = true
        /\ y = R.WEEKLY)
    \/ (Number.gt (same_group1_staked exp + stake bet) (bankroll * (group1_pct rules / 100)) = true
        /\ y = R.EVENT)
    \/ (Number.gt (same_group2_7d_staked exp + stake bet) (bankroll * (group2_pct rules / 100)) = true
        /\ y = R.TEAM)
    \/ (Number.gt (bets_today exp + 1) (freq_cap rules) = true /\ y = R.FREQ).
Proof.
  unfold violations_of, caps_of, projections; cbv zeta; cbn [unit_cap daily_cap
    weekly_cap event_cap team_cap daily_staked weekly_staked same_group1_staked
    same_group2_7d_staked bets_today].
  rewrite !elem_of_push_if, elem_of_nil. tauto.
Qed.

Lemma elem_of_gates (y : string) :
  y ∈ gates_of rules bet <->
    (negb (isValidAmericanOdds (odds bet)) || Number.ge (odds bet) (odds_gate rules) = true)
    /\ y = R.ODDS.
Proof.
  unfold gates_of; cbv zeta. rewrite elem_of_push_if, elem_of_nil. tauto.
Qed.

Lemma elem_of_flags (y : string) :
  y ∈ flags_of beh <->
    (stake_velocity_spike beh = true /\ y = R.STAKE_SPIKE)
    \/ (frequency_spike beh = true /\ y = R.FREQ_SPIKE)
    \/ (Number.ge (consecutive_overrides beh) 2 = true /\ y = R.CONS_OVR)
    \/ (Number.ge (cooldown_violations beh) 1 = true /\ y = R.CD_HIST).
Proof.
  unfold flags_of; cbv zeta. rewrite !elem_of_push_if, elem_of_nil. tauto.
Qed.

Lemma elem_of_reasons (y : string) :
  y ∈ reasons (evaluate_v1 bankroll rules bet exp beh) <->
    y ∈ violations_of bankroll rules bet exp
    \/ y ∈ gates_of rules bet \/ y ∈ flags_of beh.
Proof. rewrite reasons_running, !elem_of_app. tauto. Qed.

End Reasons.

(** Decides which check a given code can come from. *)
Ltac which_code :=
  rewrite elem_of_reasons by assumption;
  rewrite elem_of_violations, elem_of_gates, elem_of_flags;
  unfold R.UNIT, R.DAILY, R.WEEKLY, R.EVENT, R.TEAM, R.FREQ, R.ODDS,
    R.STAKE_SPIKE, R.FREQ_SPIKE, R.CONS_OVR, R.CD_HIST;
  intuition (try discriminate).

Lemma strict_check_intro (r : list string) (code : string) (value cap : float) :
  (code ∈ r <-> Number.gt value cap = true) -> strict_check r code value cap.
Proof.
  intros H. split; [exact H|].
  intros E In. apply H in In. rewrite (gt_false_of_equal _ _ E) in In. discriminate.
Qed.

(** ** Strict cap comparisons *)

(** C2: when the hard stop is off, each of the six cap checks is strict: its
    code is among the reasons exactly when the stake (or the projected value)
    is strictly greater than the cap, and it is absent when the two are
    equal.  With a bankroll of 1000 and a unit percentage of 2, a stake of 20
    does not report UNIT_SIZE_CAP_EXCEEDED and a stake of 20.01 does. *)
Theorem cap_checks_are_strict :
  (forall bankroll rules bet exp beh,
      cooldown_active beh = false ->
      let r := reasons (evaluate_v1 bankroll rules bet exp beh) in
      let S := stake bet in
      strict_check r R.UNIT S (bankroll * (unit_pct rules / 100))
      /\ strict_check r R.DAILY (daily_staked exp + S) (bankroll * (daily_pct rules / 100))
      /\ strict_check r R.WEEKLY (weekly_staked exp + S) (bankroll * (weekly_pct rules / 100))
      /\ strict_check r R.EVENT (same_group1_staked exp + S)
           (bankroll * (group1_pct rules / 100))
      /\ strict_check r R.TEAM (same_group2_7d_staked exp + S)
           (bankroll * (group2_pct rules / 100))
      /\ strict_check r R.FREQ (bets_today exp + 1) (freq_cap rules))
  /\ (forall rules bet exp beh,
      cooldown_active beh = false -> unit_pct rules = 2%float ->
      (1000 * (unit_pct rules / 100) = 20)%float
      /\ (stake bet = 20%float ->
          R.UNIT ∉ reasons (evaluate_v1 1000 rules bet exp beh))
      /\ (stake bet = 20.01%float ->
          R.UNIT ∈ reasons (evaluate_v1 1000 rules bet exp beh))).
Proof.
  split.
  - intros bankroll rules bet exp beh Hrun r S. subst r S.
    refine (conj _ (conj _ (conj _ (conj _ (conj _ _)))));
      apply strict_check_intro; which_code.
  - intros rules bet exp beh Hrun Hpct.
    assert (Hu : forall s, stake bet = s ->
              (R.UNIT ∈ reasons (evaluate_v1 1000 rules bet exp beh)
               <-> Number.gt s (1000 * (2 / 100)) = true)).
    { intros s <-. rewrite <- Hpct. which_code. }
    rewrite Hpct. split; [reflexivity|]. split; intros Hs.
    + rewrite (Hu _ Hs). vm_compute. discriminate.
    + rewrite (Hu _ Hs). vm_compute. reflexivity.
Qed.

Lemma cap_checks_are_strict_witness :
  cooldown_active (quiet false) = false
  /\ unit_pct DEFAULT_RULES = 2%float
  /\ (R.UNIT ∉ reasons (evaluate_v1 1000 DEFAULT_RULES (bet_of 20 (-110))
                          no_exposure (quiet false)))
  /\ (R.UNIT ∈ reasons (evaluate_v1 1000 DEFAULT_RULES (bet_of 20.01 (-110))
                          no_exposure (quiet false))).
Proof.
  split; [reflexivity|]. split; [reflexivity|]. split.
  - apply (proj2 cap_checks_are_strict DEFAULT_RULES (bet_of 20 (-110))
             no_exposure (quiet false) eq_refl eq_refl).
    reflexivity.
  - apply (proj2 cap_checks_are_strict DEFAULT_RULES (bet_of 20.01 (-110))
             no_exposure (quiet false) eq_refl eq_refl).
    reflexivity.
Defined.

(** ** The base verdict and its amplification *)

Lemma base_verdict_cases (v g : nat) :
  (v = 0%nat -> g = 0%nat -> base_verdict v g = ALLOW)
  /\ (v = 0%nat -> (0 < g)%nat -> base_verdict v g = WARN)
  /\ (v = 1%nat -> base_verdict v g = WARN)
  /\ ((2 <= v)%nat -> base_verdict v g = HARD_WARN).
Proof.
  unfold base_verdict.
  repeat apply conj.
  - now intros -> ->.
  - intros -> Hg. destruct g; [lia | reflexivity].
  - now intros ->.
  - intros Hv. destruct v as [|[|v]]; try lia. reflexivity.
Qed.

(** C3: when the hard stop is off, the verdict that enters the amplification
    is ALLOW without violation and without gate, WARN without violation and
    with a gate, WARN with exactly one violation and HARD_WARN with two
    violations or more. *)
Theorem base_verdict_mapping bankroll rules bet exp beh :
  cooldown_active beh = false ->
  let violations := violations_of bankroll rules bet exp in
  let gates := gates_of rules bet in
  let v := length violations in
  let g := length gates in
  exists base,
    verdict (evaluate_v1 bankroll rules bet exp beh)
      = amplify violations gates beh base
    /\ (v = 0%nat -> g = 0%nat -> base = ALLOW)
    /\ (v = 0%nat -> (0 < g)%nat -> base = WARN)
    /\ (v = 1%nat -> base = WARN)
    /\ ((2 <= v)%nat -> base = HARD_WARN).
Proof.
  intros Hrun violations gates v g.
  exists (base_verdict v g). split.
  - subst violations gates v g. now apply verdict_running.
  - apply base_verdict_cases.
Qed.

Lemma base_verdict_mapping_witness :
  cooldown_active (quiet false) = false
  /\ (exists base,
      verdict (evaluate_v1 1000 DEFAULT_RULES (bet_of 25 (-110)) no_exposure (quiet false))
        = amplify (violations_of 1000 DEFAULT_RULES (bet_of 25 (-110)) no_exposure)
            (gates_of DEFAULT_RULES (bet_of 25 (-110))) (quiet false) base
      /\ base = WARN).
Proof.
  split; [reflexivity|].
  destruct (base_verdict_mapping 1000 DEFAULT_RULES (bet_of 25 (-110)) no_exposure
              (quiet false) eq_refl) as (base & Hv & _ & _ & H1 & _).
  exists base. split; [exact Hv | apply H1; reflexivity].
Defined.

Lemma rank_escalateOneTier (v : Verdict) : (rank v <= rank (escalateOneTier v))%Z.
Proof. destruct v; simpl; lia. Qed.

Lemma rank_maxTier (a b : Verdict) : (rank a <= rank (maxTier a b))%Z.
Proof. destruct a, b; simpl; lia. Qed.

Lemma rank_RED_ALERT (v : Verdict) : (rank v <= rank RED_ALERT)%Z.
Proof. destruct v; simpl; lia. Qed.

(** Each amplification statement keeps or raises the tier, so their sequence
    does as well. *)
Lemma amplify_raises (violations gates : list string) (beh : BehavioralState)
    (v : Verdict) :
  (rank v <= rank (amplify violations gates beh v))%Z.
Proof.
  unfold amplify; cbv zeta.
  repeat match goal with
         | |- context [if ?c then _ else _] => destruct c
         end;
    repeat first
      [ apply Z.le_refl
      | apply rank_RED_ALERT
      | (etransitivity; [|apply rank_maxTier])
      | (etransitivity; [|apply rank_escalateOneTier]) ].
Qed.

(** C4: when the hard stop is off, the final verdict is at least the base
    verdict in the order ALLOW < WARN < HARD_WARN < RED_ALERT. *)
Theorem amplification_never_lowers bankroll rules bet exp beh :
  cooldown_active beh = false ->
  (rank (base_verdict (length (violations_of bankroll rules bet exp))
                      (length (gates_of rules bet)))
   <= rank (verdict (evaluate_v1 bankroll rules bet exp beh)))%Z.
Proof.
  intros Hrun. rewrite verdict_running by assumption. apply amplify_raises.
Qed.

Lemma amplification_never_lowers_witness :
  cooldown_active (quiet false) = false
  /\ (rank (base_verdict
              (length (violations_of 1000 DEFAULT_RULES (bet_of 25 300) no_exposure))
              (length (gates_of DEFAULT_RULES (bet_of 25 300))))
      <= rank (verdict (evaluate_v1 1000 DEFAULT_RULES (bet_of 25 300)
                          no_exposure (quiet false))))%Z.
Proof.
  split; [reflexivity|].
  apply (amplification_never_lowers 1000 DEFAULT_RULES (bet_of 25 300) no_exposure
           (quiet false)).
  reflexivity.
Defined.

(** ** The order of the reasons *)

Lemma violations_sublist bankroll rules bet exp :
  violations_of bankroll rules bet exp `sublist_of` violation_codes.
Proof.
  unfold violations_of; cbv zeta.
  change violation_codes
    with (((((([] ++ [R.UNIT]) ++ [R.DAILY]) ++ [R.WEEKLY]) ++ [R.EVENT])
            ++ [R.TEAM]) ++ [R.FREQ]).
  repeat apply push_if_sublist. apply sublist_nil_l.
Qed.

Lemma gates_sublist rules bet : gates_of rules bet `sublist_of` gate_codes.
Proof.
  unfold gates_of; cbv zeta. change gate_codes with ([] ++ [R.ODDS]).
  apply push_if_sublist, sublist_nil_l.
Qed.

Lemma flags_sublist beh : flags_of beh `sublist_of` flag_codes.
Proof.
  unfold flags_of; cbv zeta.
  change flag_codes
    with (((([] ++ [R.STAKE_SPIKE]) ++ [R.FREQ_SPIKE]) ++ [R.CONS_OVR]) ++ [R.CD_HIST]).
  repeat apply push_if_sublist. apply sublist_nil_l.
Qed.

Lemma all_codes_NoDup : NoDup (violation_codes ++ gate_codes ++ flag_codes).
Proof. apply (bool_decide_unpack _). vm_compute. reflexivity. Qed.

(** C5: when the hard stop is off, the reasons are the violations, then the
    gates, then the flags; the violations keep the order of the six cap
    checks, the flags the order of the four behavioural checks, and no code
    occurs twice. *)
Theorem reasons_order bankroll rules bet exp beh :
  cooldown_active beh = false ->
  let violations := violations_of bankroll rules bet exp in
  let gates := gates_of rules bet in
  let flags := flags_of beh in
  let r := reasons (evaluate_v1 bankroll rules bet exp beh) in
  r = violations ++ gates ++ flags
  /\ violations `sublist_of`
       [ "UNIT_SIZE_CAP_EXCEEDED"; "DAILY_EXPOSURE_CAP_EXCEEDED";
         "WEEKLY_EXPOSURE_CAP_EXCEEDED"; "SAME_EVENT_CONCENTRATION_CAP_EXCEEDED";
         "SAME_TEAM_7D_CONCENTRATION_CAP_EXCEEDED"; "ACTION_FREQUENCY_CAP_EXCEEDED" ]
  /\ gates `sublist_of` [ "HIGH_RISK_ODDS_GATE" ]
  /\ flags `sublist_of`
       [ "STAKE_VELOCITY_SPIKE"; "FREQUENCY_SPIKE"; "CONSECUTIVE_OVERRIDES_HIGH";
         "COOLDOWN_VIOLATION_HISTORY" ]
  /\ NoDup r.
Proof.
  intros Hrun violations gates flags r.
  assert (Hr : r = violations ++ gates ++ flags)
    by (subst r violations gates flags; now apply reasons_running).
  refine (conj Hr (conj _ (conj _ (conj _ _)))).
  - apply violations_sublist.
  - apply gates_sublist.
  - apply flags_sublist.
  - rewrite Hr. apply (sublist_NoDup _ (violation_codes ++ gate_codes ++ flag_codes)).
    + apply all_codes_NoDup.
    + apply sublist_app; [apply violations_sublist|].
      apply sublist_app; [apply gates_sublist | apply flags_sublist].
Qed.

Lemma reasons_order_witness :
  cooldown_active (quiet false) = false
  /\ reasons (evaluate_v1 1000 DEFAULT_RULES (bet_of 70 300) no_exposure (quiet false))
     = violations_of 1000 DEFAULT_RULES (bet_of 70 300) no_exposure
         ++ gates_of DEFAULT_RULES (bet_of 70 300) ++ flags_of (quiet false).
Proof.
  split; [reflexivity|].
  apply (reasons_order 1000 DEFAULT_RULES (bet_of 70 300) no_exposure (quiet false)).
  reflexivity.
Defined.

(** ** The odds gate *)

Lemma isValidAmericanOdds_false (n : float) :
  isValidAmericanOdds n = false <->
    Number.isFinite n = false \/ Number.isInteger n = false \/ Number.seq n 0 = true.
Proof.
  unfold isValidAmericanOdds.
  destruct (Number.isFinite n), (Number.isInteger n), (Number.seq n 0); simpl;
    intuition discriminate.
Qed.

Lemma gate_condition (rules : UserRules) (bet : ProposedBet) :
  negb (isValidAmericanOdds (odds bet)) || Number.ge (odds bet) (odds_gate rules) = true
  <-> (Number.isFinite (odds bet) = false \/ Number.isInteger (odds bet) = false
       \/ Number.seq (odds bet) 0 = true)
      \/ Number.ge (odds bet) (odds_gate rules) = true.
Proof.
  rewrite orb_true_iff, negb_true_iff, isValidAmericanOdds_false. tauto.
Qed.

(** C6: when the hard stop is off, HIGH_RISK_ODDS_GATE is among the reasons
    exactly when the odds are not finite, not an integer or zero, or are at
    least the odds-gate threshold of the rules; the gate list holds that code
    or nothing; changing the bankroll, the stake, the exposures or the
    behavioural signals does not change whether the gate fires.  Under the
    default threshold of 250, odds of 0 and odds of 150.5 fire the gate
    although 150.5 is below the threshold. *)
Theorem odds_gate_fires :
  (forall bankroll rules bet exp beh,
      cooldown_active beh = false ->
      let invalid :=
        Number.isFinite (odds bet) = false \/ Number.isInteger (odds bet) = false
        \/ Number.seq (odds bet) 0 = true in
      let fires := invalid \/ Number.ge (odds bet) (odds_gate rules) = true in
      (R.ODDS ∈ reasons (evaluate_v1 bankroll rules bet exp beh) <-> fires)
      /\ (gates_of rules bet = [ "HIGH_RISK_ODDS_GATE" ] <-> fires)
      /\ (gates_of rules bet = [] <-> ~ fires)
      /\ (forall bankroll' bet' exp' beh',
             cooldown_active beh' = false -> odds bet' = odds bet ->
             (R.ODDS ∈ reasons (evaluate_v1 bankroll' rules bet' exp' beh')
              <-> R.ODDS ∈ reasons (evaluate_v1 bankroll rules bet exp beh))))
  /\ (forall bankroll bet exp beh,
      cooldown_active beh = false ->
      odds bet = 0%float \/ odds bet = 150.5%float ->
      Number.ge (odds bet) (odds_gate DEFAULT_RULES) = false
      /\ R.ODDS ∈ reasons (evaluate_v1 bankroll DEFAULT_RULES bet exp beh)).
Proof.
  assert (Hin : forall bankroll rules bet exp beh,
             cooldown_active beh = false ->
             (R.ODDS ∈ reasons (evaluate_v1 bankroll rules bet exp beh)
              <-> negb (isValidAmericanOdds (odds bet))
                  || Number.ge (odds bet) (odds_gate rules) = true)).
  { intros bankroll rules bet exp beh Hrun. which_code. }
  split.
  - intros bankroll rules bet exp beh Hrun invalid fires.
    assert (Hf : negb (isValidAmericanOdds (odds bet))
                 || Number.ge (odds bet) (odds_gate rules) = true <-> fires)
      by apply gate_condition.
    refine (conj _ (conj _ (conj _ _))).
    + rewrite <- Hf. now apply Hin.
    + rewrite <- Hf. unfold gates_of, push_if; cbv zeta.
      destruct (negb _ || _); simpl; intuition discriminate.
    + rewrite <- Hf. unfold gates_of, push_if; cbv zeta.
      destruct (negb _ || _); simpl; intuition discriminate.
    + intros bankroll' bet' exp' beh' Hrun' Ho.
      rewrite (Hin bankroll' rules bet' exp' beh' Hrun'), Ho.
      symmetry. now apply Hin.
  - intros bankroll bet exp beh Hrun Ho. split.
    + destruct Ho as [-> | ->]; reflexivity.
    + apply Hin; [assumption|].
      destruct Ho as [-> | ->]; reflexivity.
Qed.

Lemma odds_gate_fires_witness :
  cooldown_active (quiet false) = false
  /\ (R.ODDS ∈ reasons (evaluate_v1 1000 DEFAULT_RULES (bet_of 20 150.5)
                          no_exposure (quiet false))).
Proof.
  split; [reflexivity|].
  apply (proj2 odds_gate_fires 1000%float (bet_of 20 150.5) no_exposure (quiet false)
           eq_refl (or_intror eq_refl)).
Defined.

(** ** The exposure aggregator *)

Section Aggregation.

Variables (host : DateHost) (now : Z) (group1_id group2_id : string).

Lemma computeExposures_snoc (ledger : list LedgerEntry.t) (e : LedgerEntry.t) :
  computeExposures host now (ledger ++ [e]) group1_id group2_id
  = accumulate (startOfLocalDay host (Some now)) (startOfISOWeekLocal host (Some now))
      (now - MS_7D) group1_id group2_id
      (computeExposures host now ledger group1_id group2_id) e.
Proof. unfold computeExposures; cbv zeta. now rewrite foldl_snoc. Qed.

Lemma accumulate_same_keys (dayStart weekStart : option Z) (t7 : Z)
    (acc : Exposures) (e e' : LedgerEntry.t) :
  same_keys e e' ->
  accumulate dayStart weekStart t7 group1_id group2_id acc e
  = accumulate dayStart weekStart t7 group1_id group2_id acc e'.
Proof. intros (Ht & Hs & H1 & H2). unfold accumulate. now rewrite Ht, Hs, H1, H2. Qed.

Lemma computeExposures_same_keys (ledger ledger' : list LedgerEntry.t) :
  Forall2 same_keys ledger ledger' ->
  computeExposures host now ledger group1_id group2_id
  = computeExposures host now ledger' group1_id group2_id.
Proof.
  intros H. unfold computeExposures; cbv zeta.
  match goal with |- foldl _ ?a _ = _ => generalize a end.
  induction H as [|e e' l l' He _ IH]; intros acc; simpl; [reflexivity|].
  rewrite (accumulate_same_keys _ _ _ _ e e' He). apply IH.
Qed.

End Aggregation.

(** C7: the aggregation is one pass over the ledger, on any host.  The day
    window starts at the instant that the host's [Date] gives for
    00:00:00.000 of the local calendar date of [now]; the week window at
    00:00:00.000 of the local calendar date reached from that of [now] by
    going back to Monday - six days on a Sunday, none on a Monday, one on a
    Tuesday, up to five on a Saturday, so that the week day reached is 1; the
    rolling window 7 times 24 hours before [now].  Each entry is tested
    against each window on its own: from the day-window start on, its stake
    is added to [daily_staked], [bets_today] grows by one and, when its
    [group1_id] is the queried one, its stake is added to
    [same_group1_staked]; from the week-window start on, its stake is added
    to [weekly_staked]; from the rolling-window start on and with the queried
    [group2_id], its stake is added to [same_group2_7d_staked].  Only the
    timestamp, the stake and the two group identifiers of an entry are looked
    at. *)
Theorem exposure_aggregation (host : DateHost) (now : Z)
    (group1_id group2_id : string) :
  let midnight_of := fun t =>
    Date_local host (getFullYear host t) (getMonth host t) (getDate host t)
      0 0 0 0 in
  let diffToMonday := fun day => ((if day =? 0 then -6 else 1) - day)%Z in
  let dayStart := midnight_of now in
  let monday :=
    setDate host now (getDate host now + diffToMonday (getDay host now))%Z in
  let weekStart :=
    match monday with
    | Some m => midnight_of m
    | None => None
    end in
  let t7 := (now - 7 * 24 * (60 * 60 * 1000))%Z in
  let total := fun ledger => computeExposures host now ledger group1_id group2_id in
  diffToMonday <$> [0; 1; 2; 3; 4; 5; 6]%Z = [-6; 0; -1; -2; -3; -4; -5]%Z
  /\ (forall day : Z, ((day + diffToMonday day) mod 7 = 1)%Z)
  /\ total [] = no_exposure
  /\ (forall ledger e,
        let acc := total ledger in
        let s := LedgerEntry.stake e in
        let today := reaches (LedgerEntry.ts e) dayStart in
        let this_week := reaches (LedgerEntry.ts e) weekStart in
        let last_7d := (t7 <=? LedgerEntry.ts e)%Z in
        let same_g1 := String.eqb (LedgerEntry.group1_id e) group1_id in
        let same_g2 := String.eqb (LedgerEntry.group2_id e) group2_id in
        total (ledger ++ [e])
        = {| daily_staked :=
               if today then (daily_staked acc + s)%float else daily_staked acc;
             bets_today :=
               if today then (bets_today acc + 1)%float else bets_today acc;
             same_group1_staked :=
               if today && same_g1 then (same_group1_staked acc + s)%float
               else same_group1_staked acc;
             weekly_staked :=
               if this_week then (weekly_staked acc + s)%float else weekly_staked acc;
             same_group2_7d_staked :=
               if last_7d && same_g2 then (same_group2_7d_staked acc + s)%float
               else same_group2_7d_staked acc |})
  /\ (forall ledger ledger',
        Forall2 same_keys ledger ledger' -> total ledger = total ledger').
Proof.
  intros midnight_of diffToMonday dayStart monday weekStart t7 total.
  refine (conj _ (conj _ (conj _ (conj _ _)))).
  - reflexivity.
  - intros day. subst diffToMonday. cbv beta.
    destruct (Z.eqb_spec day 0) as [->|Hne]; [reflexivity|].
    now replace (day + (1 - day))%Z with 1%Z by lia.
  - reflexivity.
  - intros ledger e acc s today this_week last_7d same_g1 same_g2.
    subst total acc; cbv beta. rewrite computeExposures_snoc.
    change (startOfLocalDay host (Some now)) with dayStart.
    change (startOfISOWeekLocal host (Some now)) with weekStart.
    change (now - MS_7D)%Z with t7.
    unfold accumulate; cbv zeta.
    fold s today this_week last_7d same_g1 same_g2.
    destruct today, same_g1; reflexivity.
  - intros ledger ledger' H. now apply computeExposures_same_keys.
Qed.

(** ** The rule store *)

Section Spread.

Implicit Types (o : gmap string JSON) (l : list (string * JSON)).

Lemma define_all_notin l o (k : string) :
  k ∉ l.*1 -> foldl (fun o kv => <[kv.1 := kv.2]> o) o l !! k = o !! k.
Proof.
  revert o. induction l as [|[k' v] l IH]; intros o Hk; simpl; [reflexivity|].
  rewrite fmap_cons, not_elem_of_cons in Hk. destruct Hk as [Hne Hk].
  rewrite IH by assumption. simpl. now rewrite lookup_insert_ne.
Qed.

Lemma define_all_is_Some l o (k : string) :
  is_Some (o !! k) -> is_Some (foldl (fun o kv => <[kv.1 := kv.2]> o) o l !! k).
Proof.
  revert o. induction l as [|[k' v] l IH]; intros o Hk; simpl; [assumption|].
  apply IH. simpl. rewrite lookup_insert_is_Some.
  destruct (decide (k' = k)); [left | right]; easy.
Qed.

(** A property that the spread value does not have keeps the value it had. *)
Lemma spread_lookup_notin o (src : JSON) (k : string) :
  k ∉ (own_props src).*1 -> spread o src !! k = o !! k.
Proof. apply define_all_notin. Qed.

(** A spread never removes a property. *)
Lemma spread_is_Some o (src : JSON) (k : string) :
  is_Some (o !! k) -> is_Some (spread o src !! k).
Proof. apply define_all_is_Some. Qed.

End Spread.

Lemma defaults_table :
  (fun k => spread ∅ (rules_object DEFAULT_RULES) !! k) <$> rule_fields
  = [ Some (JNumber 2); Some (JNumber 6); Some (JNumber 20); Some (JNumber 4);
      Some (JNumber 8); Some (JNumber 5); Some (JNumber 250) ].
Proof. vm_compute. reflexivity. Qed.

Lemma defaults_defined (k : string) :
  k ∈ rule_fields -> is_Some (spread ∅ (rules_object DEFAULT_RULES) !! k).
Proof.
  unfold rule_fields. rewrite !elem_of_cons, elem_of_nil.
  intros H. repeat destruct H as [->|H]; try (vm_compute; eauto). destruct H.
Qed.

(** C8: whatever the store holds, every rule field that the stored value does
    not carry is loaded with its default (2, 6, 20, 4, 8, 5 and 250 in the
    order of [rule_fields]), so that no rule field of the loaded configuration
    is undefined; and when nothing is stored, or when what is stored cannot be
    read or parsed, the loaded configuration is exactly the default one. *)
Theorem loadRules_defaults (JSON_parse : string -> completion JSON)
    (getItem : string -> completion (option string)) :
  let defaults := spread ∅ (rules_object DEFAULT_RULES) in
  let loaded := loadRules JSON_parse getItem in
  (fun k => defaults !! k) <$> rule_fields
    = [ Some (JNumber 2); Some (JNumber 6); Some (JNumber 20); Some (JNumber 4);
        Some (JNumber 8); Some (JNumber 5); Some (JNumber 250) ]
  /\ rules_of_object defaults = Some DEFAULT_RULES
  /\ (getItem RULES_KEY = Throw
      \/ getItem RULES_KEY = Normal None
      \/ getItem RULES_KEY = Normal (Some "")
      \/ (exists raw, getItem RULES_KEY = Normal (Some raw) /\ JSON_parse raw = Throw)
      -> loaded = defaults)
  /\ (forall raw parsed k,
        getItem RULES_KEY = Normal (Some raw) -> raw <> "" ->
        JSON_parse raw = Normal parsed ->
        loaded = spread defaults parsed
        /\ (k ∉ (own_props parsed).*1 -> loaded !! k = defaults !! k))
  /\ (forall k, k ∈ rule_fields -> is_Some (loaded !! k)).
Proof.
  intros defaults loaded.
  refine (conj defaults_table (conj _ (conj _ (conj _ _)))).
  - vm_compute. reflexivity.
  - subst loaded. unfold loadRules.
    intros [-> | [-> | [-> | (raw & -> & Hp)]]]; try reflexivity.
    rewrite Hp. now destruct (bool_decide (raw = "")).
  - intros raw parsed k Hget Hne Hp.
    assert (E : loaded = spread defaults parsed).
    { subst loaded. unfold loadRules. rewrite Hget, Hp.
      now rewrite bool_decide_eq_false_2. }
    split; [exact E|]. intros Hk. rewrite E. now apply spread_lookup_notin.
  - intros k Hk. subst loaded. unfold loadRules.
    pose proof (defaults_defined k Hk) as Hd.
    destruct (getItem RULES_KEY) as [[raw|]|]; try exact Hd.
    destruct (bool_decide (raw = "")); try exact Hd.
    destruct (JSON_parse raw) as [parsed|]; try exact Hd.
    now apply spread_is_Some.
Qed.

(** ** Appending to the ledger *)

Lemma recent_first_take (n : nat) (ledger : list LedgerEntry.t) :
  recent_first ledger -> recent_first (take n ledger).
Proof.
  unfold recent_first. intros H. revert n.
  induction H as [|e l _ IH Hall]; intros [|n]; simpl; try constructor.
  - apply IH.
  - now apply Forall_take.
Qed.

(** C9: appending puts the new entry at the front, keeps the first 499
    entries of the previous ledger as they were and in their order, drops the
    entries behind them, and so returns at most 500 entries; when the clock
    has not gone back behind the entries already stored, a ledger ordered
    from the most recent entry to the oldest stays so. *)
Theorem addToLedger_bounded (trim : string -> string) (uuid : string) (now : Z)
    (stake odds : float) (group1 group2 : string) (decision : DecisionResult)
    (ledger : list LedgerEntry.t) :
  let entry :=
    {| LedgerEntry.id := uuid; LedgerEntry.ts := now;
       LedgerEntry.stake := Number.or_zero stake; LedgerEntry.odds := odds;
       LedgerEntry.group1_id := trim group1; LedgerEntry.group2_id := trim group2;
       LedgerEntry.verdict := verdict decision;
       LedgerEntry.reasons := reasons decision |} in
  let next := addToLedger trim uuid now stake odds group1 group2 decision ledger in
  next = entry :: take 499 ledger
  /\ next !! 0%nat = Some entry
  /\ (forall i : nat, (i < 499)%nat -> next !! S i = ledger !! i)
  /\ (forall i : nat, (499 <= i)%nat -> next !! S i = None)
  /\ length next = Nat.min 500 (S (length ledger))
  /\ (length next <= 500)%nat
  /\ (Forall (fun e => (LedgerEntry.ts e <= now)%Z) ledger ->
      recent_first ledger -> recent_first next).
Proof.
  intros entry next.
  assert (E : next = entry :: take 499 ledger) by reflexivity.
  refine (conj E (conj _ (conj _ (conj _ (conj _ (conj _ _)))))); rewrite E.
  - reflexivity.
  - intros i Hi. simpl. now apply lookup_take_lt.
  - intros i Hi. simpl. now apply lookup_take_ge.
  - rewrite length_cons, length_take. lia.
  - rewrite length_cons, length_take. lia.
  - intros Hnow Hsorted. constructor.
    + now apply recent_first_take.
    + now apply Forall_take.
Qed.

(** ** The two engines *)

(** C10: with the default rules, the rule-driven engine returns the result of
    the fixed-rule engine of [src/app/page.tsx] - the same verdict, the same
    reasons in the same order, the same two flags - for every bankroll, bet,
    exposure snapshot and behavioural state. *)
Theorem engines_agree_on_defaults :
  (forall bankroll bet exp (b : Page.BehavioralState),
      Page.evaluate_v1 bankroll bet exp b
      = evaluate_v1 bankroll DEFAULT_RULES bet exp (behavior_of_page b))
  /\ (forall bankroll bet exp (beh : BehavioralState),
      evaluate_v1 bankroll DEFAULT_RULES bet exp beh
      = Page.evaluate_v1 bankroll bet exp (page_of_behavior beh)).
Proof.
  assert (H : forall bankroll bet exp (b : Page.BehavioralState),
             Page.evaluate_v1 bankroll bet exp b
             = evaluate_v1 bankroll DEFAULT_RULES bet exp (behavior_of_page b)).
  { intros bankroll bet exp b. unfold Page.evaluate_v1, evaluate_v1.
    cbn [cooldown_active behavior_of_page].
    destruct (Page.cooldown_active b); reflexivity. }
  split; [exact H|].
  intros bankroll bet exp beh. rewrite H. now destruct beh.
Qed.

(** ** Scenarios *)

(** A stake of 25 on a bankroll of 1000 exceeds the unit cap of 20: one
    violation, verdict WARN. *)
Example scenario_unit_cap :
  evaluate_v1 1000 DEFAULT_RULES (bet_of 25 (-110)) no_exposure (quiet false)
  = {| verdict := WARN; reasons := [R.UNIT];
       friction_required := true; cooldown_triggered := false |}.
Proof. reflexivity. Qed.

(** The same bet during a stake-velocity spike is escalated by one tier. *)
Example scenario_spike_escalates :
  evaluate_v1 1000 DEFAULT_RULES (bet_of 25 (-110)) no_exposure
    {| stake_velocity_spike := true; frequency_spike := false;
       consecutive_overrides := 0; cooldown_violations := 0;
       cooldown_active := false |}
  = {| verdict := HARD_WARN; reasons := [R.UNIT; R.STAKE_SPIKE];
       friction_required := true; cooldown_triggered := false |}.
Proof. reflexivity. Qed.

(** A week already at 190 staked: a stake of 15 passes every other cap and
    the weekly violation alone forces RED_ALERT. *)
Example scenario_weekly_cap :
  evaluate_v1 1000 DEFAULT_RULES (bet_of 15 (-110))
    {| daily_staked := 0; weekly_staked := 190; same_group1_staked := 0;
       same_group2_7d_staked := 0; bets_today := 0 |}
    (quiet false)
  = {| verdict := RED_ALERT; reasons := [R.WEEKLY];
       friction_required := true; cooldown_triggered := true |}.
Proof. reflexivity. Qed.

(** Three consecutive overrides force RED_ALERT without any violation. *)
Example scenario_overrides :
  evaluate_v1 1000 DEFAULT_RULES (bet_of 20 (-110)) no_exposure
    {| stake_velocity_spike := false; frequency_spike := false;
       consecutive_overrides := 3; cooldown_violations := 0;
       cooldown_active := false |}
  = {| verdict := RED_ALERT; reasons := [R.CONS_OVR];
       friction_required := true; cooldown_triggered := true |}.
Proof. reflexivity. Qed.

(** * Further properties of the two pages *)

(** ** More on binary64 values *)

Section FloatFacts.

Lemma SFcompare_antisym (x y : spec_float) :
  SFcompare y x = option_map CompOpp (SFcompare x y).
Proof.
  destruct x as [sx|sx| |sx mx ex], y as [sy|sy| |sy my ey]; simpl;
    try reflexivity;
    try (destruct sx; reflexivity); try (destruct sy; reflexivity);
    try (destruct sx, sy; reflexivity).
  destruct sx, sy; try reflexivity; simpl; f_equal;
    rewrite (Z.compare_antisym ex ey);
    destruct (Z.compare ex ey); simpl; try reflexivity;
    rewrite !Pos.compare_cont_spec; simpl;
    rewrite (Pos.compare_antisym mx my);
    destruct (Pos.compare mx my); reflexivity.
Qed.

Lemma SFeqb_refl_false (x : spec_float) : SFeqb x x = false <-> x = S754_nan.
Proof.
  unfold SFeqb. destruct x as [s|s| |s m e]; simpl.
  - split; discriminate.
  - destruct s; split; discriminate.
  - split; reflexivity.
  - rewrite Z.compare_refl, Pos.compare_cont_refl. destruct s; split; discriminate.
Qed.

(** A number is NaN exactly when its binary64 value is. *)
Lemma is_nan_spec (x : float) : is_nan x = true <-> Prim2SF x = S754_nan.
Proof.
  unfold is_nan. rewrite negb_true_iff, FloatAxioms.eqb_spec.
  apply SFeqb_refl_false.
Qed.

Lemma is_nan_add_r (a s : float) : is_nan s = true -> is_nan (a + s) = true.
Proof.
  rewrite !is_nan_spec, add_spec. intros ->.
  unfold SF64add, SFadd. now destruct (Prim2SF a).
Qed.

(** NaN is strictly greater than nothing. *)
Lemma gt_nan_l (x c : float) : is_nan x = true -> Number.gt x c = false.
Proof.
  rewrite is_nan_spec. unfold Number.gt. rewrite ltb_spec. intros ->.
  unfold SFltb. now destruct (Prim2SF c).
Qed.

(** For two numbers, neither of them NaN, [a < b] fails only when [b <= a]. *)
Lemma ge_of_not_lt (a b : float) :
  is_nan a = false -> is_nan b = false -> (a <? b)%float = false ->
  Number.ge a b = true.
Proof.
  intros Ha Hb. unfold Number.ge. rewrite ltb_spec, leb_spec.
  assert (Na : Prim2SF a <> S754_nan)
    by (intros E; apply is_nan_spec in E; congruence).
  assert (Nb : Prim2SF b <> S754_nan)
    by (intros E; apply is_nan_spec in E; congruence).
  unfold SFltb, SFleb. rewrite (SFcompare_antisym (Prim2SF a) (Prim2SF b)).
  destruct (SFcompare (Prim2SF a) (Prim2SF b)) as [[| |]|] eqn:E; simpl;
    try discriminate; try reflexivity.
  destruct (Prim2SF a), (Prim2SF b); simpl in E; congruence.
Qed.

Lemma is_finite_not_nan (x : float) : is_finite x = true -> is_nan x = false.
Proof.
  unfold is_finite. rewrite negb_true_iff, orb_false_iff. tauto.
Qed.

End FloatFacts.

(** ** The verdict as a function of what the checks found *)

Lemma gates_of_eq (rules : UserRules) (bet : ProposedBet) :
  gates_of rules bet
  = if negb (isValidAmericanOdds (odds bet)) || Number.ge (odds bet) (odds_gate rules)
    then [R.ODDS] else [].
Proof. reflexivity. Qed.

Lemma includes_weekly bankroll rules bet exp :
  includes (violations_of bankroll rules bet exp) R.WEEKLY
  = Number.gt (weekly_staked exp + stake bet) (bankroll * (weekly_pct rules / 100)).
Proof.
  apply eq_true_iff_eq. rewrite includes_spec, elem_of_violations.
  unfold R.UNIT, R.DAILY, R.WEEKLY, R.EVENT, R.TEAM, R.FREQ.
  intuition (try discriminate).
Qed.

Lemma amplify_table (violations : list string) (gate : bool) (beh : BehavioralState) :
  amplify violations (if gate then [R.ODDS] else []) beh
    (base_verdict (length violations) (length (if gate then [R.ODDS] else [])))
  = verdict_table (includes violations R.WEEKLY)
      (Number.ge (consecutive_overrides beh) 3)
      (Number.ge (cooldown_violations beh) 1)
      (stake_velocity_spike beh || frequency_spike beh) gate (length violations).
Proof.
  unfold amplify, base_verdict, verdict_table; cbv zeta.
  generalize (includes violations R.WEEKLY) (length violations).
  intros weekly v.
  destruct (Number.ge (consecutive_overrides beh) 3),
    (Number.ge (cooldown_violations beh) 1),
    (stake_velocity_spike beh), (frequency_spike beh), gate, weekly;
    destruct v as [|[|v]]; reflexivity.
Qed.

Lemma verdict_table_running bankroll rules bet exp beh :
  cooldown_active beh = false ->
  verdict (evaluate_v1 bankroll rules bet exp beh)
  = verdict_table
      (includes (violations_of bankroll rules bet exp) R.WEEKLY)
      (Number.ge (consecutive_overrides beh) 3)
      (Number.ge (cooldown_violations beh) 1)
      (stake_velocity_spike beh || frequency_spike beh)
      (negb (isValidAmericanOdds (odds bet)) || Number.ge (odds bet) (odds_gate rules))
      (length (violations_of bankroll rules bet exp)).
Proof.
  intros Hrun. rewrite verdict_running by assumption.
  rewrite gates_of_eq. apply amplify_table.
Qed.

(** The base mapping and the five amplification statements amount to one
    priority table: RED_ALERT on a weekly violation, on three consecutive
    overrides, on a recorded cooldown violation together with any violation,
    or on two violations during a spike; otherwise HARD_WARN on two
    violations, on one violation during a spike, or on the odds gate during a
    spike; otherwise ALLOW without violation and gate, and WARN in the
    remaining cases. *)
Theorem verdict_priority_table bankroll rules bet exp beh :
  cooldown_active beh = false ->
  verdict (evaluate_v1 bankroll rules bet exp beh)
  = verdict_table
      (Number.gt (weekly_staked exp + stake bet) (bankroll * (weekly_pct rules / 100)))
      (Number.ge (consecutive_overrides beh) 3)
      (Number.ge (cooldown_violations beh) 1)
      (stake_velocity_spike beh || frequency_spike beh)
      (negb (isValidAmericanOdds (odds bet)) || Number.ge (odds bet) (odds_gate rules))
      (length (violations_of bankroll rules bet exp)).
Proof.
  intros Hrun. rewrite <- includes_weekly. now apply verdict_table_running.
Qed.

Lemma verdict_priority_table_witness :
  cooldown_active (quiet false) = false
  /\ verdict (evaluate_v1 1000 DEFAULT_RULES (bet_of 70 300) no_exposure (quiet false))
     = HARD_WARN.
Proof.
  split; [reflexivity|].
  rewrite (verdict_priority_table 1000 DEFAULT_RULES (bet_of 70 300) no_exposure
             (quiet false) eq_refl).
  reflexivity.
Defined.

Lemma verdict_table_ALLOW (weekly cons3 cdv1 spike gate : bool) (v : nat) :
  verdict_table weekly cons3 cdv1 spike gate v = ALLOW
  <-> v = 0%nat /\ gate = false /\ weekly = false /\ cons3 = false.
Proof.
  unfold verdict_table.
  destruct weekly, cons3, cdv1, spike, gate; destruct v as [|[|v]]; simpl;
    intuition (try discriminate; try lia).
Qed.

Lemma verdict_table_RED (weekly cons3 cdv1 spike gate : bool) (v : nat) :
  verdict_table weekly cons3 cdv1 spike gate v = RED_ALERT
  <-> weekly = true \/ cons3 = true \/ (cdv1 = true /\ (1 <= v)%nat)
      \/ ((2 <= v)%nat /\ spike = true).
Proof.
  unfold verdict_table.
  destruct weekly, cons3, cdv1, spike, gate; destruct v as [|[|v]]; simpl;
    intuition (try discriminate; try lia).
Qed.

(** No friction is required exactly when the hard stop is off, no cap is
    exceeded, the odds gate is silent and there are fewer than three
    consecutive overrides; the verdict is then ALLOW and the reasons are the
    behavioural flags alone, which may well be present. *)
Theorem no_friction_iff bankroll rules bet exp beh :
  let r := evaluate_v1 bankroll rules bet exp beh in
  (friction_required r = false
   <-> cooldown_active beh = false
       /\ violations_of bankroll rules bet exp = []
       /\ gates_of rules bet = []
       /\ Number.ge (consecutive_overrides beh) 3 = false)
  /\ (friction_required r = false -> verdict r = ALLOW /\ reasons r = flags_of beh).
Proof.
  intros r.
  assert (Hstop : cooldown_active beh = true -> friction_required r = true).
  { intros H. subst r. unfold evaluate_v1. now rewrite H. }
  assert (Hfr : cooldown_active beh = false ->
                (friction_required r = false <-> verdict r = ALLOW)).
  { intros H. subst r. unfold evaluate_v1. rewrite H. cbv zeta.
    cbn [friction_required verdict]. rewrite negb_false_iff. apply bool_decide_eq_true. }
  assert (Hallow : cooldown_active beh = false ->
                   (verdict r = ALLOW
                    <-> violations_of bankroll rules bet exp = []
                        /\ gates_of rules bet = []
                        /\ Number.ge (consecutive_overrides beh) 3 = false)).
  { intros H. subst r. rewrite verdict_table_running by assumption.
    rewrite verdict_table_ALLOW, gates_of_eq.
    destruct (violations_of bankroll rules bet exp) as [|c l]; simpl.
    - destruct (negb _ || _); intuition discriminate.
    - intuition discriminate. }
  destruct (cooldown_active beh) eqn:Hc.
  - rewrite (Hstop eq_refl). split; [|discriminate].
    split; [discriminate | intros [? _]; discriminate].
  - specialize (Hfr eq_refl). specialize (Hallow eq_refl). split.
    + rewrite Hfr, Hallow. tauto.
    + intros Hf. apply Hfr in Hf. split; [exact Hf|].
      apply Hallow in Hf. destruct Hf as (Hv & Hg & _).
      subst r. rewrite reasons_running by assumption. now rewrite Hv, Hg.
Qed.

(** A cooldown is triggered exactly in these cases: the hard stop is on, the
    weekly cap is exceeded, there are three consecutive overrides or more, a
    cooldown violation is on record while some cap is exceeded, or two caps
    or more are exceeded during a spike. *)
Theorem cooldown_triggered_iff bankroll rules bet exp beh :
  cooldown_triggered (evaluate_v1 bankroll rules bet exp beh) = true
  <-> cooldown_active beh = true
      \/ Number.gt (weekly_staked exp + stake bet) (bankroll * (weekly_pct rules / 100)) = true
      \/ Number.ge (consecutive_overrides beh) 3 = true
      \/ (Number.ge (cooldown_violations beh) 1 = true
          /\ (1 <= length (violations_of bankroll rules bet exp))%nat)
      \/ ((2 <= length (violations_of bankroll rules bet exp))%nat
          /\ stake_velocity_spike beh || frequency_spike beh = true).
Proof.
  destruct (cooldown_active beh) eqn:Hc.
  - unfold evaluate_v1. rewrite Hc. simpl. tauto.
  - assert (E : cooldown_triggered (evaluate_v1 bankroll rules bet exp beh) = true
                <-> verdict (evaluate_v1 bankroll rules bet exp beh) = RED_ALERT).
    { unfold evaluate_v1. rewrite Hc. cbv zeta.
      cbn [cooldown_triggered verdict]. apply bool_decide_eq_true. }
    rewrite E, verdict_table_running by assumption.
    rewrite verdict_table_RED, includes_weekly.
    intuition discriminate.
Qed.

Lemma verdict_table_spike (weekly cons3 cdv1 spike spike' gate : bool) (v : nat) :
  (spike = true -> spike' = true) ->
  (rank (verdict_table weekly cons3 cdv1 spike gate v)
   <= rank (verdict_table weekly cons3 cdv1 spike' gate v))%Z.
Proof.
  unfold verdict_table. intros H.
  destruct spike, spike'; try (specialize (H eq_refl); discriminate);
    destruct weekly, cons3, cdv1, gate; destruct v as [|[|v]]; simpl; lia.
Qed.

(** Turning a spike signal on, everything else unchanged, never lowers the
    verdict. *)
Theorem spike_never_lowers bankroll rules bet exp beh beh' :
  cooldown_active beh = false -> cooldown_active beh' = false ->
  consecutive_overrides beh' = consecutive_overrides beh ->
  cooldown_violations beh' = cooldown_violations beh ->
  (stake_velocity_spike beh = true -> stake_velocity_spike beh' = true) ->
  (frequency_spike beh = true -> frequency_spike beh' = true) ->
  (rank (verdict (evaluate_v1 bankroll rules bet exp beh))
   <= rank (verdict (evaluate_v1 bankroll rules bet exp beh')))%Z.
Proof.
  intros Hrun Hrun' Hco Hcv Hs Hf.
  rewrite !verdict_table_running by assumption. rewrite Hco, Hcv.
  apply verdict_table_spike.
  rewrite !orb_true_iff. tauto.
Qed.

Lemma spike_never_lowers_witness :
  (rank (verdict (evaluate_v1 1000 DEFAULT_RULES (bet_of 25 (-110)) no_exposure
                    (quiet false)))
   <= rank (verdict (evaluate_v1 1000 DEFAULT_RULES (bet_of 25 (-110)) no_exposure
                       {| stake_velocity_spike := true; frequency_spike := false;
                          consecutive_overrides := 0; cooldown_violations := 0;
                          cooldown_active := false |})))%Z.
Proof.
  apply spike_never_lowers; try reflexivity; intros H; try exact H; discriminate.
Defined.

(** ** Malformed amounts *)

(** A stake that is NaN exceeds no cap: the unit check and the four projected
    sums compare NaN with their caps, and only the frequency check - which
    does not read the stake - can still report a violation. *)
Theorem nan_stake_passes_caps bankroll rules bet exp :
  is_nan (stake bet) = true ->
  violations_of bankroll rules bet exp
  = if Number.gt (bets_today exp + 1) (freq_cap rules) then [R.FREQ] else [].
Proof.
  intros Hnan. unfold violations_of, caps_of, projections; cbv zeta.
  cbn [unit_cap daily_cap weekly_cap event_cap team_cap daily_staked weekly_staked
       same_group1_staked same_group2_7d_staked bets_today].
  rewrite (gt_nan_l (stake bet)) by assumption.
  rewrite !(gt_nan_l (_ + stake bet)) by now apply is_nan_add_r.
  reflexivity.
Qed.

Lemma nan_stake_passes_caps_witness :
  is_nan (stake (bet_of nan (-110))) = true
  /\ violations_of 1000 DEFAULT_RULES (bet_of nan (-110)) no_exposure = [].
Proof.
  split; [reflexivity|].
  rewrite (nan_stake_passes_caps 1000 DEFAULT_RULES (bet_of nan (-110)) no_exposure
             eq_refl).
  reflexivity.
Defined.

(** [n || 0] is never NaN, leaves every number other than NaN and the two
    zeros as it is, and applying it twice changes nothing more: the stake and
    the bankroll that the page hands to the engine and to the ledger are
    never NaN. *)
Theorem or_zero_sanitizes (n : float) :
  is_nan (Number.or_zero n) = false
  /\ (is_nan n = false -> is_zero n = false -> Number.or_zero n = n)
  /\ (is_nan n = true \/ is_zero n = true -> Number.or_zero n = 0%float)
  /\ Number.or_zero (Number.or_zero n) = Number.or_zero n.
Proof.
  unfold Number.or_zero.
  destruct (is_nan n) eqn:Hn, (is_zero n) eqn:Hz; simpl;
    repeat split; try reflexivity; try discriminate; try tauto;
    try (now rewrite ?Hn, ?Hz); intuition discriminate.
Qed.

(** ** The size of the reason list *)

(** An evaluation reports at most eleven reasons: at most six violations, one
    gate and four flags. *)
Theorem reasons_bounded bankroll rules bet exp beh :
  (length (violations_of bankroll rules bet exp) <= 6)%nat
  /\ (length (gates_of rules bet) <= 1)%nat
  /\ (length (flags_of beh) <= 4)%nat
  /\ (length (reasons (evaluate_v1 bankroll rules bet exp beh)) <= 11)%nat.
Proof.
  pose proof (sublist_length _ _ (violations_sublist bankroll rules bet exp)) as Hv.
  pose proof (sublist_length _ _ (gates_sublist rules bet)) as Hg.
  pose proof (sublist_length _ _ (flags_sublist beh)) as Hf.
  change (length violation_codes) with 6%nat in Hv.
  change (length gate_codes) with 1%nat in Hg.
  change (length flag_codes) with 4%nat in Hf.
  refine (conj Hv (conj Hg (conj Hf _))).
  destruct (cooldown_active beh) eqn:Hc.
  - unfold evaluate_v1. rewrite Hc. simpl. lia.
  - rewrite reasons_running by assumption. rewrite !length_app. lia.
Qed.

(** ** More on the aggregator *)

Section MoreAggregation.

Variables (host : DateHost) (now : Z) (group1_id group2_id : string).

Lemma accumulate_unseen (acc : Exposures) (e : LedgerEntry.t) :
  in_some_window host now e = false ->
  accumulate (startOfLocalDay host (Some now)) (startOfISOWeekLocal host (Some now))
    (now - MS_7D) group1_id group2_id acc e = acc.
Proof.
  unfold in_some_window. rewrite !orb_false_iff. intros [[Hd Hw] H7].
  unfold accumulate. rewrite Hd, Hw, H7. now destruct acc.
Qed.

Lemma foldl_accumulate_seen (ledger : list LedgerEntry.t) (acc : Exposures) :
  foldl (accumulate (startOfLocalDay host (Some now))
           (startOfISOWeekLocal host (Some now))
           (now - MS_7D) group1_id group2_id) acc (seen host now ledger)
  = foldl (accumulate (startOfLocalDay host (Some now))
             (startOfISOWeekLocal host (Some now))
             (now - MS_7D) group1_id group2_id) acc ledger.
Proof.
  revert acc. induction ledger as [|e l IH]; intros acc; [reflexivity|].
  unfold seen in *. rewrite filter_cons. case_decide as Hin; simpl.
  - apply IH.
  - apply not_true_is_false in Hin. rewrite accumulate_unseen by assumption.
    apply IH.
Qed.

Lemma same_group1_snoc (ledger : list LedgerEntry.t) (e : LedgerEntry.t) :
  LedgerEntry.group1_id e <> group1_id ->
  same_group1_staked (computeExposures host now (ledger ++ [e]) group1_id group2_id)
  = same_group1_staked (computeExposures host now ledger group1_id group2_id).
Proof.
  intros Hne. rewrite computeExposures_snoc. unfold accumulate.
  rewrite (proj2 (String.eqb_neq _ _) Hne).
  now destruct (reaches _ (startOfLocalDay _ _)).
Qed.

Lemma same_group2_snoc (ledger : list LedgerEntry.t) (e : LedgerEntry.t) :
  LedgerEntry.group2_id e <> group2_id ->
  same_group2_7d_staked (computeExposures host now (ledger ++ [e]) group1_id group2_id)
  = same_group2_7d_staked (computeExposures host now ledger group1_id group2_id).
Proof.
  intros Hne. rewrite computeExposures_snoc. unfold accumulate.
  rewrite (proj2 (String.eqb_neq _ _) Hne), andb_false_r.
  now destruct (reaches _ (startOfLocalDay _ _)).
Qed.

End MoreAggregation.

(** An entry that is before the day start, before the week start and more
    than seven times 24 hours old counts for nothing: removing such entries
    from the ledger leaves the five exposures as they are.  (Being more than
    seven times 24 hours old is not enough by itself: the week start is the
    host's, and the code tests it separately.) *)
Theorem entries_outside_windows_ignored (host : DateHost) (now : Z)
    (ledger : list LedgerEntry.t) (group1_id group2_id : string) :
  computeExposures host now (seen host now ledger) group1_id group2_id
  = computeExposures host now ledger group1_id group2_id.
Proof. unfold computeExposures; cbv zeta. apply foldl_accumulate_seen. Qed.

(** A group identifier that no ledger entry carries has no concentration: the
    same-group sums are 0, whatever the other exposures are. *)
Theorem unseen_group_has_no_concentration (host : DateHost) (now : Z)
    (ledger : list LedgerEntry.t) (group1_id group2_id : string) :
  (Forall (fun e => LedgerEntry.group1_id e <> group1_id) ledger ->
   same_group1_staked (computeExposures host now ledger group1_id group2_id) = 0%float)
  /\ (Forall (fun e => LedgerEntry.group2_id e <> group2_id) ledger ->
      same_group2_7d_staked (computeExposures host now ledger group1_id group2_id)
      = 0%float).
Proof.
  split; induction ledger as [|e l IH] using rev_ind; intros H;
    try reflexivity; apply Forall_app in H; destruct H as [Hl He];
    apply Forall_inv in He; cbv beta in He.
  - rewrite same_group1_snoc by exact He. now apply IH.
  - rewrite same_group2_snoc by exact He. now apply IH.
Qed.

(** ** The ledger store and the rule store together *)

Section StoreFacts.

Variable fits : string -> string -> bool.
Variable JSON_parse : string -> completion JSON.
Variable JSON_stringify : JSON -> string.

Lemma setItem_Normal (store store' : gmap string string) (key value : string) :
  setItem fits store key value = Normal store' -> store' = <[key := value]> store.
Proof. unfold setItem. destruct (fits key value); congruence. Qed.

Lemma define_all_lookup_in (l : list (string * JSON)) (o : gmap string JSON)
    (k : string) (v : JSON) :
  NoDup l.*1 -> (k, v) ∈ l ->
  foldl (fun o kv => <[kv.1 := kv.2]> o) o l !! k = Some v.
Proof.
  revert o. induction l as [|[k' v'] l IH]; intros o Hnd Hin.
  - now apply elem_of_nil in Hin.
  - rewrite fmap_cons in Hnd. apply NoDup_cons in Hnd. destruct Hnd as [Hk' Hnd].
    apply elem_of_cons in Hin. destruct Hin as [Heq | Hin]; simpl.
    + injection Heq as -> ->. rewrite define_all_notin by assumption.
      apply lookup_insert_eq.
    + now apply IH.
Qed.

Lemma spread_over_defaults (r : UserRules) :
  spread (spread ∅ (rules_object DEFAULT_RULES)) (rules_object r)
  = spread ∅ (rules_object r).
Proof.
  unfold spread, rules_object, own_props. cbn [foldl fst snd].
  apply map_eq. intros k. rewrite !lookup_insert.
  repeat case_decide; reflexivity.
Qed.

Lemma rules_of_object_spread (r : UserRules) :
  rules_of_object (spread ∅ (rules_object r)) = Some r.
Proof. destruct r. reflexivity. Qed.

End StoreFacts.

(** A ledger that was saved is the ledger that is loaded next, provided the
    write was accepted and the parser reads back what the printer wrote. *)
Theorem ledger_round_trip (fits : string -> string -> bool)
    (JSON_parse : string -> completion JSON) (JSON_stringify : JSON -> string)
    (store store' : gmap string string) (entries : list JSON) :
  saveLedger fits JSON_stringify store entries = Normal store' ->
  JSON_stringify (JArray entries) <> "" ->
  JSON_parse (JSON_stringify (JArray entries)) = Normal (JArray entries) ->
  loadLedger JSON_parse (getItem store') = entries.
Proof.
  intros Hsave Hne Hparse. apply setItem_Normal in Hsave. subst store'.
  unfold loadLedger, getItem. rewrite lookup_insert_eq.
  rewrite bool_decide_eq_false_2 by assumption. now rewrite Hparse.
Qed.

Lemma ledger_round_trip_witness :
  loadLedger (const_parse (JArray [JNull]))
    (getItem (<[LEDGER_KEY := "[null]"]> ∅))
  = [JNull].
Proof.
  apply (ledger_round_trip always_fits (const_parse (JArray [JNull]))
           (const_stringify "[null]") ∅).
  - reflexivity.
  - discriminate.
  - reflexivity.
Defined.

(** Rules that were saved are the rules that are loaded next - each of the
    seven fields with its saved value, none replaced by a default - provided
    the write was accepted and the parser reads back what the printer
    wrote. *)
Theorem rules_round_trip (fits : string -> string -> bool)
    (JSON_parse : string -> completion JSON) (JSON_stringify : JSON -> string)
    (store store' : gmap string string) (r : UserRules) :
  saveRules fits JSON_stringify store (rules_object r) = Normal store' ->
  JSON_stringify (rules_object r) <> "" ->
  JSON_parse (JSON_stringify (rules_object r)) = Normal (rules_object r) ->
  rules_of_object (loadRules JSON_parse (getItem store')) = Some r.
Proof.
  intros Hsave Hne Hparse. apply setItem_Normal in Hsave. subst store'.
  unfold loadRules, getItem. rewrite lookup_insert_eq.
  rewrite bool_decide_eq_false_2 by assumption. rewrite Hparse.
  rewrite spread_over_defaults. apply rules_of_object_spread.
Qed.

Lemma rules_round_trip_witness :
  rules_of_object
    (loadRules (const_parse (rules_object DEFAULT_RULES))
       (getItem (<[RULES_KEY := "rules"]> ∅)))
  = Some DEFAULT_RULES.
Proof.
  apply (rules_round_trip always_fits (const_parse (rules_object DEFAULT_RULES))
           (const_stringify "rules") ∅).
  - reflexivity.
  - discriminate.
  - reflexivity.
Defined.

(** The two stores do not touch each other: saving the rules leaves the
    loaded ledger as it was, and saving the ledger leaves the loaded rules as
    they were. *)
Theorem stores_are_separate (fits : string -> string -> bool)
    (JSON_parse : string -> completion JSON) (JSON_stringify : JSON -> string)
    (store store' : gmap string string) :
  (forall rules,
      saveRules fits JSON_stringify store rules = Normal store' ->
      loadLedger JSON_parse (getItem store') = loadLedger JSON_parse (getItem store))
  /\ (forall entries,
      saveLedger fits JSON_stringify store entries = Normal store' ->
      loadRules JSON_parse (getItem store') = loadRules JSON_parse (getItem store)).
Proof.
  split.
  - intros rules Hsave. apply setItem_Normal in Hsave. subst store'.
    unfold loadLedger, getItem. now rewrite lookup_insert_ne.
  - intros entries Hsave. apply setItem_Normal in Hsave. subst store'.
    unfold loadRules, getItem. now rewrite lookup_insert_ne.
Qed.

Lemma stores_are_separate_witness :
  loadLedger (const_parse (JArray [JNull]))
    (getItem (<[RULES_KEY := "rules"]> (<[LEDGER_KEY := "[null]"]> ∅)))
  = loadLedger (const_parse (JArray [JNull])) (getItem (<[LEDGER_KEY := "[null]"]> ∅)).
Proof.
  apply (proj1 (stores_are_separate always_fits (const_parse (JArray [JNull]))
                  (const_stringify "rules") (<[LEDGER_KEY := "[null]"]> ∅)
                  (<[RULES_KEY := "rules"]> (<[LEDGER_KEY := "[null]"]> ∅)))
           JNull).
  reflexivity.
Defined.

(** A stored property always wins over its default, whatever its value is: a
    stored 0, [null] or text is loaded as it stands. *)
Theorem stored_value_wins (JSON_parse : string -> completion JSON)
    (getItem : string -> completion (option string))
    (raw : string) (parsed : JSON) (k : string) (v : JSON) :
  getItem RULES_KEY = Normal (Some raw) -> raw <> "" ->
  JSON_parse raw = Normal parsed ->
  NoDup (own_props parsed).*1 -> (k, v) ∈ own_props parsed ->
  loadRules JSON_parse getItem !! k = Some v.
Proof.
  intros Hget Hne Hparse Hnd Hin. unfold loadRules.
  rewrite Hget, Hparse, bool_decide_eq_false_2 by assumption.
  now apply define_all_lookup_in.
Qed.

Lemma stored_value_wins_witness :
  loadRules (const_parse (JObject [("unit_pct", JNull)]))
    (fun _ => Normal (Some "stored")) !! "unit_pct"
  = Some JNull.
Proof.
  apply (stored_value_wins (const_parse (JObject [("unit_pct", JNull)]))
           (fun _ => Normal (Some "stored")) "stored"
           (JObject [("unit_pct", JNull)])).
  - reflexivity.
  - discriminate.
  - reflexivity.
  - apply NoDup_singleton.
  - apply list_elem_of_singleton. reflexivity.
Defined.

(** ** The ledger of the fixed-rule page *)

Lemma or_empty_id (s : string) : PageLedger.or_empty s = s.
Proof. unfold PageLedger.or_empty. case_bool_decide; congruence. Qed.

(** The aggregator of [src/app/page.tsx] computes the exposures of the
    terminal page's aggregator on the same entries: the category of an entry
    plays no part. *)
Theorem aggregators_agree (host : DateHost) (now : Z)
    (ledger : list PageLedger.LedgerEntry) (group1_id group2_id : string) :
  PageLedger.computeExposuresNow host now ledger group1_id group2_id
  = computeExposures host now (erase_category <$> ledger) group1_id group2_id.
Proof.
  unfold PageLedger.computeExposuresNow, computeExposures; cbv zeta.
  match goal with |- foldl _ ?a _ = _ => generalize a end.
  induction ledger as [|e l IH]; intros acc; [reflexivity|].
  rewrite fmap_cons. cbn [foldl]. rewrite IH. reflexivity.
Qed.

(** Appending on the fixed-rule page is appending on the terminal page, up to
    the category that its entries carry: the new entry first, then the first
    499 entries of the previous ledger. *)
Theorem appends_agree (trim : string -> string) (uuid : string) (now : Z)
    (category : string) (stake odds : float) (group1 group2 : string)
    (decision : DecisionResult) (ledger : list PageLedger.LedgerEntry) :
  erase_category
    <$> PageLedger.addToLedger trim uuid now category stake odds group1 group2
          decision ledger
  = addToLedger trim uuid now stake odds group1 group2 decision
      (erase_category <$> ledger).
Proof.
  unfold PageLedger.addToLedger, addToLedger. destruct decision as [v r f c].
  cbv zeta. rewrite fmap_take, fmap_cons, !or_empty_id. reflexivity.
Qed.

(** ** Display helpers *)

Lemma Prim2SF_infinity (x : float) :
  is_infinity x = true -> exists s, Prim2SF x = S754_infinity s.
Proof.
  unfold is_infinity. rewrite FloatAxioms.eqb_spec, abs_spec.
  change (Prim2SF infinity) with (S754_infinity false).
  destruct (Prim2SF x) as [s|s| |s m e]; simpl; try discriminate.
  intros _. now exists s.
Qed.

(** A number between 0 and 1 is finite. *)
Lemma is_finite_unit_interval (x : float) :
  Number.ge x 0 = true -> Number.ge 1 x = true -> is_finite x = true.
Proof.
  unfold Number.ge. rewrite !leb_spec.
  change (Prim2SF 0) with (S754_zero false).
  change (Prim2SF 1) with (S754_finite false 4503599627370496 (-52)).
  intros H0 H1. unfold is_finite. rewrite negb_true_iff, orb_false_iff. split.
  - destruct (is_nan x) eqn:E; [|reflexivity].
    apply is_nan_spec in E. rewrite E in H0. discriminate.
  - destruct (is_infinity x) eqn:E; [|reflexivity].
    apply Prim2SF_infinity in E. destruct E as [s E]. rewrite E in H0, H1.
    destruct s; discriminate.
Qed.

Lemma lt_false_of_ge (a b : float) : Number.ge a b = true -> (a <? b)%float = false.
Proof.
  unfold Number.ge. rewrite leb_spec, ltb_spec. unfold SFleb, SFltb.
  rewrite (SFcompare_antisym (Prim2SF a) (Prim2SF b)).
  now destruct (SFcompare (Prim2SF a) (Prim2SF b)) as [[| |]|].
Qed.

Lemma not_negative_of_gt_1 (x : float) :
  Number.gt x 1 = true -> (x <? 0)%float = false.
Proof.
  unfold Number.gt. rewrite !ltb_spec.
  change (Prim2SF 0) with (S754_zero false).
  change (Prim2SF 1) with (S754_finite false 4503599627370496 (-52)).
  unfold SFltb. destruct (Prim2SF x) as [s|s| |s m e]; simpl;
    try discriminate; destruct s; simpl; (discriminate || reflexivity).
Qed.

(** [clamp01] returns 0 for NaN, for the two infinities and for every
    negative number, 1 for every finite number above 1, and a number between
    0 and 1 as it is; its result is therefore always finite and between 0
    and 1. *)
Theorem clamp01_range (x : float) :
  (Number.isFinite x = false -> clamp01 x = 0%float)
  /\ ((x <? 0)%float = true -> clamp01 x = 0%float)
  /\ (Number.isFinite x = true -> Number.gt x 1 = true -> clamp01 x = 1%float)
  /\ (Number.ge x 0 = true -> Number.ge 1 x = true -> clamp01 x = x)
  /\ is_finite (clamp01 x) = true
  /\ Number.ge (clamp01 x) 0 = true
  /\ Number.ge 1 (clamp01 x) = true.
Proof.
  unfold clamp01, Number.isFinite.
  refine (conj _ (conj _ (conj _ (conj _ (conj _ (conj _ _)))))).
  - now intros ->.
  - intros ->. now destruct (is_finite x).
  - intros -> G. simpl. now rewrite (not_negative_of_gt_1 x G), G.
  - intros H0 H1. rewrite (is_finite_unit_interval x H0 H1). simpl.
    rewrite (lt_false_of_ge x 0 H0).
    unfold Number.gt. now rewrite (lt_false_of_ge 1 x H1).
  - destruct (is_finite x) eqn:F; simpl; [|reflexivity].
    destruct (x <? 0)%float; [reflexivity|].
    destruct (Number.gt x 1); [reflexivity | exact F].
  - destruct (is_finite x) eqn:F; simpl; [|reflexivity].
    destruct (x <? 0)%float eqn:L; [reflexivity|].
    destruct (Number.gt x 1); [reflexivity|].
    apply ge_of_not_lt; [now apply is_finite_not_nan | reflexivity | exact L].
  - destruct (is_finite x) eqn:F; simpl; [|reflexivity].
    destruct (x <? 0)%float; [reflexivity|].
    destruct (Number.gt x 1) eqn:G; [reflexivity|].
    apply ge_of_not_lt; [reflexivity | now apply is_finite_not_nan | exact G].
Qed.

(** Two different verdicts never share a status label or a badge class. *)
Theorem labels_distinguish_verdicts (v v' : Verdict) :
  (statusLabel v = statusLabel v' -> v = v')
  /\ (badgeClass v = badgeClass v' -> v = v').
Proof. split; destruct v, v'; simpl; intros H; (reflexivity || discriminate H). Qed.

Lemma labels_distinguish_verdicts_witness :
  statusLabel WARN = statusLabel WARN /\ WARN = WARN.
Proof.
  split; [reflexivity|].
  apply (proj1 (labels_distinguish_verdicts WARN WARN)). reflexivity.
Defined.

Lemma clamp01_range_witness :
  (Number.isFinite infinity = false /\ clamp01 infinity = 0%float)
  /\ ((-3 <? 0)%float = true /\ clamp01 (-3) = 0%float)
  /\ (Number.isFinite 7 = true /\ Number.gt 7 1 = true /\ clamp01 7 = 1%float)
  /\ (Number.ge 0.5 0 = true /\ Number.ge 1 0.5 = true /\ clamp01 0.5 = 0.5%float).
Proof.
  refine (conj (conj eq_refl _)
            (conj (conj eq_refl _)
               (conj (conj eq_refl (conj eq_refl _))
                  (conj eq_refl (conj eq_refl _))))).
  - apply (proj1 (clamp01_range infinity)); reflexivity.
  - apply (proj1 (proj2 (clamp01_range (-3)))); reflexivity.
  - apply (proj1 (proj2 (proj2 (clamp01_range 7)))); reflexivity.
  - apply (proj1 (proj2 (proj2 (proj2 (clamp01_range 0.5))))); reflexivity.
Defined.

Lemma or_zero_sanitizes_witness :
  is_nan 20 = false /\ is_zero 20 = false /\ Number.or_zero 20 = 20%float.
Proof.
  split; [reflexivity|]. split; [reflexivity|].
  apply (proj1 (proj2 (or_zero_sanitizes 20))); reflexivity.
Defined.

Lemma no_friction_iff_witness :
  friction_required
    (evaluate_v1 1000 DEFAULT_RULES (bet_of 20 (-110)) no_exposure
       {| stake_velocity_spike := true; frequency_spike := false;
          consecutive_overrides := 0; cooldown_violations := 0;
          cooldown_active := false |}) = false
  /\ reasons
       (evaluate_v1 1000 DEFAULT_RULES (bet_of 20 (-110)) no_exposure
          {| stake_velocity_spike := true; frequency_spike := false;
             consecutive_overrides := 0; cooldown_violations := 0;
             cooldown_active := false |})
     = [R.STAKE_SPIKE].
Proof.
  split; [reflexivity|].
  apply (proj2 (no_friction_iff 1000 DEFAULT_RULES (bet_of 20 (-110)) no_exposure
                  {| stake_velocity_spike := true; frequency_spike := false;
                     consecutive_overrides := 0; cooldown_violations := 0;
                     cooldown_active := false |})).
  reflexivity.
Defined.

(** ** Behavioural flags among the reasons *)

(** When the hard stop is off, each behavioural flag is among the reasons
    exactly when its signal is on: the two spikes as given, the override flag
    from two consecutive overrides on, the history flag from one cooldown
    violation on - whatever the caps and the odds gate found. *)
Theorem flags_reported bankroll rules bet exp beh :
  cooldown_active beh = false ->
  let r := reasons (evaluate_v1 bankroll rules bet exp beh) in
  (R.STAKE_SPIKE ∈ r <-> stake_velocity_spike beh = true)
  /\ (R.FREQ_SPIKE ∈ r <-> frequency_spike beh = true)
  /\ (R.CONS_OVR ∈ r <-> Number.ge (consecutive_overrides beh) 2 = true)
  /\ (R.CD_HIST ∈ r <-> Number.ge (cooldown_violations beh) 1 = true).
Proof.
  intros Hrun r. subst r.
  refine (conj _ (conj _ (conj _ _))); which_code.
Qed.

Lemma flags_reported_witness :
  cooldown_active (quiet false) = false
  /\ (R.CONS_OVR ∈ reasons (evaluate_v1 1000 DEFAULT_RULES (bet_of 20 (-110))
                              no_exposure (quiet false))
      <-> Number.ge (consecutive_overrides (quiet false)) 2 = true).
Proof.
  split; [reflexivity|].
  apply (flags_reported 1000 DEFAULT_RULES (bet_of 20 (-110)) no_exposure
           (quiet false) eq_refl).
Defined.

(** ** Loading the ledger *)

(** [loadLedger] fails open: it returns the empty ledger when nothing is
    stored, when the store cannot be read, when the stored text is empty or
    is not JSON, and when the stored value is not an array; it returns the
    elements of the stored array otherwise. *)
Theorem loadLedger_fails_open (JSON_parse : string -> completion JSON)
    (getItem : string -> completion (option string)) :
  let loaded := loadLedger JSON_parse getItem in
  (getItem LEDGER_KEY = Throw
   \/ getItem LEDGER_KEY = Normal None
   \/ getItem LEDGER_KEY = Normal (Some "")
   \/ (exists raw, getItem LEDGER_KEY = Normal (Some raw) /\ JSON_parse raw = Throw)
   \/ (exists raw parsed,
          getItem LEDGER_KEY = Normal (Some raw) /\ JSON_parse raw = Normal parsed
          /\ forall elems, parsed <> JArray elems)
   -> loaded = [])
  /\ (forall raw elems,
        getItem LEDGER_KEY = Normal (Some raw) -> raw <> "" ->
        JSON_parse raw = Normal (JArray elems) -> loaded = elems).
Proof.
  intros loaded. subst loaded. unfold loadLedger. split.
  - intros [-> | [-> | [-> | [(raw & -> & Hp) | (raw & parsed & -> & Hp & Hna)]]]];
      try reflexivity; rewrite Hp; destruct (bool_decide (raw = "")); try reflexivity.
    destruct parsed; try reflexivity. now destruct (Hna elems).
  - intros raw elems -> Hne ->. now rewrite bool_decide_eq_false_2.
Qed.

Lemma loadLedger_fails_open_witness :
  loadLedger (const_parse (JObject [])) (fun _ => Normal (Some "{}")) = [].
Proof.
  apply (proj1 (loadLedger_fails_open (const_parse (JObject []))
                  (fun _ => Normal (Some "{}")))).
  right. right. right. right. exists "{}", (JObject []).
  repeat split. discriminate.
Defined.
